(** * sanic-ext: the validation engine ([extras/validation/check.py]) and the
    log consumer ([extensions/logging/logger.py])

    A shallow embedding of [Hint.validate], [Hint.coerce], [check_data] and
    the [_check_*] helpers, and of the [Logger] consumer loop, with the
    properties that the specification states about them. *)

From Stdlib Require Import ZArith Ascii String List Bool Lia.
From stdpp Require Import base option list strings pretty gmap.

Set Warnings "-register-all".

Local Open Scope string_scope.
Local Open Scope list_scope.

(** ** Python values

    The values that reach the validator: parsed JSON, form and query data
    (scalars, lists, objects with string keys), the "missing" markers that
    signature defaults carry, and instances of user models.  Floating point
    numbers are left out of the universe.  A dict is an association list in
    insertion order. *)

Inductive sentinel : Type :=
| HAS_DEFAULT_FACTORY   (* dataclasses._HAS_DEFAULT_FACTORY *)
| NOTHING.              (* attrs.NOTHING *)

Inductive value : Type :=
| VNone
| VBool (b : bool)
| VInt (z : Z)
| VStr (s : string)
| VList (items : list value)
| VDict (entries : list (string * value))
| VSentinel (m : sentinel)
| VInst (cls : string) (attrs : list (string * value)).

Definition pydict : Type := list (string * value).

Definition sentinel_eqb (a b : sentinel) : bool :=
  match a, b with
  | HAS_DEFAULT_FACTORY, HAS_DEFAULT_FACTORY => true
  | NOTHING, NOTHING => true
  | _, _ => false
  end.

Definition is_None (v : value) : bool :=
  match v with VNone => true | _ => false end.

Definition is_list (v : value) : bool :=
  match v with VList _ => true | _ => false end.

(** [d.get(key)], [key in d] and [d[key] = v] on insertion-ordered dicts. *)
Fixpoint dict_get {A : Type} (key : string) (d : list (string * A)) : option A :=
  match d with
  | [] => None
  | (k, v) :: rest => if String.eqb k key then Some v else dict_get key rest
  end.

Definition dict_has {A : Type} (key : string) (d : list (string * A)) : bool :=
  match dict_get key d with Some _ => true | None => false end.

Fixpoint dict_set {A : Type} (key : string) (v : A) (d : list (string * A))
  : list (string * A) :=
  match d with
  | [] => [(key, v)]
  | (k, w) :: rest =>
      if String.eqb k key then (k, v) :: rest else (k, w) :: dict_set key v rest
  end.

(** Python's [==] on this universe: [bool] is a subclass of [int] and the two
    compare numerically, lists compare element by element, dicts compare as
    mappings, the markers compare by identity, and two instances of one
    dataclass compare their fields in order. *)
Definition int_of_bool (b : bool) : Z := if b then 1%Z else 0%Z.

Fixpoint py_eq (a b : value) {struct a} : bool :=
  let fix list_eq (xs ys : list value) {struct xs} : bool :=
    match xs, ys with
    | [], [] => true
    | x :: xs', y :: ys' => py_eq x y && list_eq xs' ys'
    | _, _ => false
    end in
  let fix dict_sub (xs ys : list (string * value)) {struct xs} : bool :=
    match xs with
    | [] => true
    | (k, x) :: xs' =>
        match dict_get k ys with
        | Some y => py_eq x y && dict_sub xs' ys
        | None => false
        end
    end in
  let fix attrs_eq (xs ys : list (string * value)) {struct xs} : bool :=
    match xs, ys with
    | [], [] => true
    | (k, x) :: xs', (k', y) :: ys' =>
        String.eqb k k' && py_eq x y && attrs_eq xs' ys'
    | _, _ => false
    end in
  match a, b with
  | VNone, VNone => true
  | VBool x, VBool y => Bool.eqb x y
  | VBool x, VInt y => Z.eqb (int_of_bool x) y
  | VInt x, VBool y => Z.eqb x (int_of_bool y)
  | VInt x, VInt y => Z.eqb x y
  | VStr x, VStr y => String.eqb x y
  | VList xs, VList ys => list_eq xs ys
  | VDict xs, VDict ys =>
      Nat.eqb (length xs) (length ys) && dict_sub xs ys
  | VSentinel x, VSentinel y => sentinel_eqb x y
  | VInst c xs, VInst c' ys => String.eqb c c' && attrs_eq xs ys
  | _, _ => false
  end.

(** ** Classes, typing objects and hints *)

(** How a dataclass field gets its value when the caller passes none. *)
Inductive field_default : Type :=
| NoDefault
| Default (v : value)
| Factory (produced : value).   (* field(default_factory=f), with f() = produced *)

Inductive pycls : Type :=
| Cstr | Cint | Cbool | Clist | Cdict | CNoneType
| CModel (name : string) (fields : list (string * field_default)).

Inductive origin_t : Type :=
| OrUnion        (* typing.Union *)
| OrUnionType    (* types.UnionType, X | Y *)
| OrLiteral      (* typing.Literal *)
| OrList         (* list *)
| OrDict         (* dict *)
| OrOther (name : string).

(** What a [Hint.hint] can hold: [typing.Any], a class, a plain object (the
    value of a literal), or a subscripted generic with its [get_args]. *)
Inductive pyobj : Type :=
| Any
| Cls (c : pycls)
| Val (v : value)
| Generic (o : origin_t) (args : list pyobj).

(** [class Hint(NamedTuple)] *)
Inductive Hint : Type :=
  MkHint {
    hint : pyobj;
    model : bool;
    literal : bool;
    typed : bool;
    nullable : bool;
    origin : option origin_t;
    allowed : list Hint;
    allow_missing : bool
  }.

(** ** Exceptions and outcomes

    A message is the f-string that builds it: literal text and the
    interpolated objects, whose rendering by [str()] is left symbolic. *)
Inductive frag : Type :=
| FText (s : string)
| FVal (v : value)
| FObj (o : pyobj).

Definition message : Type := list frag.

Inductive exn : Type :=
| ValueError (m : message)
| TypeError (m : message)
| AttributeError (m : message)
| KeyError (m : message).

(** A call returns, raises, or exhausts the interpreter's recursion limit. *)
Inductive outcome (A : Type) : Type :=
| Return (a : A)
| Raise (e : exn)
| RecursionLimit.
Arguments Return {A} a.
Arguments Raise {A} e.
Arguments RecursionLimit {A}.

Definition bind {A B : Type} (m : outcome A) (k : A -> outcome B) : outcome B :=
  match m with
  | Return a => k a
  | Raise e => Raise e
  | RecursionLimit => RecursionLimit
  end.

Notation "'let!' x ':=' m 'in' k" := (bind m (fun x => k))
  (at level 10, x name, m at level 100, k at level 200).

(** A comprehension [[f(x) for x in xs]]: left to right, the first exception
    aborts it. *)
Fixpoint map_outcome {A B : Type} (f : A -> outcome B) (xs : list A)
  : outcome (list B) :=
  match xs with
  | [] => Return []
  | x :: rest =>
      let! y := f x in
      let! ys := map_outcome f rest in
      Return (y :: ys)
  end.

(** [", ".join(parts)] *)
Fixpoint join (sep : string) (parts : list message) : message :=
  match parts with
  | [] => []
  | [p] => p
  | p :: rest => p ++ FText sep :: join sep rest
  end.

(** ** Built-in operations the validator relies on *)

(** [str.lower()], on the ASCII letters. *)
Definition lower_ascii (c : ascii) : ascii :=
  let n := nat_of_ascii c in
  if (65 <=? n)%nat && (n <=? 90)%nat then ascii_of_nat (n + 32) else c.

Fixpoint lower (s : string) : string :=
  match s with
  | EmptyString => EmptyString
  | String c rest => String (lower_ascii c) (lower rest)
  end.

Definition mem_string (s : string) (l : list string) : bool :=
  existsb (String.eqb s) l.

(** [value.lower()]: only [str] has the method. *)
Definition call_lower (v : value) : outcome string :=
  match v with
  | VStr s => Return (lower s)
  | _ => Raise (AttributeError [FVal v; FText " object has no attribute 'lower'"])
  end.

(** [sanic.utils.str_to_bool], the coercer that [get_coercer] substitutes for
    [bool]: the recognised tokens map to a boolean, anything else is a
    [ValueError]. *)
Definition truthy_tokens : list string :=
  ["y"; "yes"; "yep"; "yup"; "t"; "true"; "on"; "enable"; "enabled"; "1"].
Definition falsy_tokens : list string :=
  ["n"; "no"; "f"; "false"; "off"; "disable"; "disabled"; "0"].

Definition str_to_bool (v : value) : outcome value :=
  let! val := call_lower v in
  if mem_string val truthy_tokens then Return (VBool true)
  else if mem_string val falsy_tokens then Return (VBool false)
  else Raise (ValueError [FText "Invalid truth value "; FVal (VStr val)]).

(** [def str_to_none(value: Optional[str])] *)
Definition str_to_none (v : value) : outcome value :=
  if is_None v then Return VNone
  else
    let! low := call_lower v in
    if mem_string low ["null"; "none"; ""] then Return VNone
    else Raise (ValueError [FText "Could not convert "; FVal v; FText " to None"]).

(** [isinstance(value, cls)] for a class. *)
Definition instance_of (v : value) (c : pycls) : bool :=
  match v, c with
  | VNone, CNoneType => true
  | VBool _, Cbool => true
  | VBool _, Cint => true
  | VInt _, Cint => true
  | VStr _, Cstr => true
  | VList _, Clist => true
  | VDict _, Cdict => true
  | VInst n _, CModel n' _ => String.eqb n n'
  | _, _ => false
  end.

Definition not_a_type (o : pyobj) : exn :=
  TypeError [FText "isinstance() arg 2 must be a type, a tuple of types, or a union"; FObj o].

(** [isinstance(value, o)] for any second argument: a class answers, a union
    answers through its members in order, every other object is refused with
    a [TypeError]. *)
Fixpoint isinstance_members (v : value) (whole : pyobj) (args : list pyobj)
  : outcome bool :=
  match args with
  | [] => Return false
  | Cls c :: rest =>
      if instance_of v c then Return true else isinstance_members v whole rest
  | _ :: _ => Raise (not_a_type whole)
  end.

Definition isinstance (v : value) (o : pyobj) : outcome bool :=
  match o with
  | Cls c => Return (instance_of v c)
  | Generic OrUnion args => isinstance_members v o args
  | Generic OrUnionType args => isinstance_members v o args
  | _ => Raise (not_a_type o)
  end.

(** [typing.get_args] *)
Definition get_args (o : pyobj) : list pyobj :=
  match o with
  | Generic _ args => args
  | _ => []
  end.

Definition is_NoneType (o : pyobj) : bool :=
  match o with Cls CNoneType => true | _ => false end.

Definition is_bool_cls (o : pyobj) : bool :=
  match o with Cls Cbool => true | _ => false end.

Definition is_list_cls (o : pyobj) : bool :=
  match o with Cls Clist => true | _ => false end.

Definition is_Any (o : pyobj) : bool :=
  match o with Any => true | _ => false end.

(** Modelled from the spec: [sanic_ext.utils.typing.is_generic] and
    [is_optional] are imported by check.py but the module is not among the
    sources.  Following section 4.1, a generic is a subscripted typing
    construct (union, literal set, parametrised list or dict) and "the
    optional idiom" is "a union with a null alternative": two arguments, one
    of them [NoneType]. *)
Definition is_generic (o : pyobj) : bool :=
  match o with Generic _ _ => true | _ => false end.

Definition is_optional (o : pyobj) : bool :=
  is_generic o
  && Nat.eqb (length (get_args o)) 2
  && existsb is_NoneType (get_args o).

(** ** Signatures and schema entries *)

(** The signature recorded for a model is that of a record constructor: a
    list of positional-or-keyword parameters, one per field, with no
    catch-all parameter.  An [inspect.Parameter] is its name and its
    default, if it has one; a dataclass field with a default factory shows
    the marker [_HAS_DEFAULT_FACTORY] as its default. *)
Record Param : Type := MkParam {
  p_name : string;
  p_default : option value
}.

Definition Signature : Type := list Param.

(** [schema[name]]: the recorded signature and the hint of each field. *)
Record SchemaEntry : Type := MkEntry {
  sig : Signature;
  hints : gmap string Hint
}.

Definition missing_argument (name : string) : exn :=
  TypeError [FText "missing a required argument: "; FVal (VStr name)].

Definition unexpected_keyword (name : string) : exn :=
  TypeError [FText "got an unexpected keyword argument "; FVal (VStr name)].

(** [Signature.bind] called with keyword arguments only: parameters are matched in declaration order, a
    parameter with neither argument nor default is an error, and so is a
    keyword that is left over once every parameter is served. *)
Fixpoint bind_parameters (params : Signature) (kwargs : pydict) : outcome pydict :=
  match params with
  | [] => Return []
  | p :: rest =>
      match dict_get (p_name p) kwargs with
      | Some v =>
          let! arguments := bind_parameters rest kwargs in
          Return ((p_name p, v) :: arguments)
      | None =>
          match p_default p with
          | None => Raise (missing_argument (p_name p))
          | Some _ => bind_parameters rest kwargs
          end
      end
  end.

Definition is_parameter (params : Signature) (name : string) : bool :=
  existsb (fun p => String.eqb (p_name p) name) params.

Definition sig_bind (params : Signature) (kwargs : pydict) : outcome pydict :=
  let! arguments := bind_parameters params kwargs in
  match find (fun kv => negb (is_parameter params (fst kv))) kwargs with
  | Some (k, _) => Raise (unexpected_keyword k)
  | None => Return arguments
  end.

(** [bound.apply_defaults()] *)
Fixpoint apply_defaults (params : Signature) (arguments : pydict) : pydict :=
  match params with
  | [] => []
  | p :: rest =>
      match dict_get (p_name p) arguments with
      | Some v => (p_name p, v) :: apply_defaults rest arguments
      | None =>
          match p_default p with
          | Some d => (p_name p, d) :: apply_defaults rest arguments
          | None => apply_defaults rest arguments
          end
      end
  end.

(** [bound.args]: the values of the leading parameters that are bound. *)
Fixpoint bound_args (params : Signature) (arguments : pydict) : list value :=
  match params with
  | [] => []
  | p :: rest =>
      match dict_get (p_name p) arguments with
      | Some v => v :: bound_args rest arguments
      | None => []
      end
  end.

(** [bound.kwargs]: the bound parameters after the first unbound one. *)
Fixpoint bound_kwargs (started : bool) (params : Signature) (arguments : pydict)
  : pydict :=
  match params with
  | [] => []
  | p :: rest =>
      match dict_get (p_name p) arguments with
      | Some v =>
          if started then (p_name p, v) :: bound_kwargs true rest arguments
          else bound_kwargs false rest arguments
      | None => bound_kwargs true rest arguments
      end
  end.

(** [d.update(pairs)], and [dict(pairs)] as an update of the empty dict. *)
Definition dict_update (d : pydict) (pairs : list (string * value)) : pydict :=
  fold_left (fun acc kv => dict_set (fst kv) (snd kv) acc) pairs d.

Definition parameter_names (params : Signature) : list string :=
  map p_name params.

(** [zip(names, values)] *)
Fixpoint zip_pairs (names : list string) (values : list value)
  : list (string * value) :=
  match names, values with
  | n :: ns, v :: vs => (n, v) :: zip_pairs ns vs
  | _, _ => []
  end.

(** ** Calling a class *)

(** The [__init__] that [@dataclass] generates: positional arguments fill the
    leading fields, keywords the named ones, a field that receives the
    factory marker calls its factory. *)
Definition from_factory (d : field_default) (v : value) : value :=
  match d, v with
  | Factory produced, VSentinel HAS_DEFAULT_FACTORY => produced
  | _, _ => v
  end.

Fixpoint init_fields (fields : list (string * field_default))
    (args : list value) (kwargs : pydict) : outcome pydict :=
  match fields with
  | [] =>
      match args with
      | [] => Return []
      | _ :: _ => Raise (TypeError [FText "too many positional arguments"])
      end
  | (f, d) :: rest =>
      match args with
      | a :: args' =>
          if dict_has f kwargs
          then Raise (TypeError [FText "got multiple values for argument "; FVal (VStr f)])
          else
            let! attrs := init_fields rest args' kwargs in
            Return ((f, from_factory d a) :: attrs)
      | [] =>
          match dict_get f kwargs, d with
          | Some v, _ =>
              let! attrs := init_fields rest [] kwargs in
              Return ((f, from_factory d v) :: attrs)
          | None, NoDefault => Raise (missing_argument f)
          | None, Default v =>
              let! attrs := init_fields rest [] kwargs in
              Return ((f, v) :: attrs)
          | None, Factory produced =>
              let! attrs := init_fields rest [] kwargs in
              Return ((f, produced) :: attrs)
          end
      end
  end.

Definition dataclass_init (name : string) (fields : list (string * field_default))
    (args : list value) (kwargs : pydict) : outcome value :=
  match find (fun kv => negb (dict_has (fst kv) fields)) kwargs with
  | Some (k, _) => Raise (unexpected_keyword k)
  | None =>
      let! attrs := init_fields fields args kwargs in
      Return (VInst name attrs)
  end.

(** [cls.__name__] *)
Definition class_name (c : pycls) : string :=
  match c with
  | Cstr => "str" | Cint => "int" | Cbool => "bool" | Clist => "list"
  | Cdict => "dict" | CNoneType => "NoneType"
  | CModel name _ => name
  end.

(** [model.__name__]: read off a class; the other hint objects are modelled
    as not having the attribute. *)
Definition get_name (o : pyobj) : outcome string :=
  match o with
  | Cls c => Return (class_name c)
  | _ => Raise (AttributeError [FObj o; FText " has no attribute '__name__'"])
  end.

(** ** The built-in constructors, concretely

    [int], [str], [list], [dict], [bool] and [NoneType] called the way the
    validator calls a coercer (one positional argument) or a model (keyword
    arguments only).  Text is ASCII. *)

Definition hex_digit (n : nat) : ascii :=
  ascii_of_nat (if (n <? 10)%nat then 48 + n else 87 + n).

Definition escape_char (quote c : ascii) : string :=
  let n := nat_of_ascii c in
  if Ascii.eqb c "\" then "\\"
  else if Ascii.eqb c quote then String "\" (String c "")
  else if (n =? 9)%nat then "\t"
  else if (n =? 10)%nat then "\n"
  else if (n =? 13)%nat then "\r"
  else if (n <? 32)%nat || (n =? 127)%nat
  then String "\" (String "x" (String (hex_digit (n / 16)) (String (hex_digit (n mod 16)) "")))
  else String c "".

Fixpoint escape (quote : ascii) (s : string) : string :=
  match s with
  | EmptyString => EmptyString
  | String c rest => escape_char quote c +:+ escape quote rest
  end.

Fixpoint contains_char (c : ascii) (s : string) : bool :=
  match s with
  | EmptyString => false
  | String d rest => Ascii.eqb c d || contains_char c rest
  end.

Definition double_quote : ascii := ascii_of_nat 34.

(** [repr(s)] of a [str]: single quotes, unless the text has a single quote
    and no double quote. *)
Definition repr_str (s : string) : string :=
  let quote : ascii :=
    if contains_char "'" s && negb (contains_char double_quote s)
    then double_quote else "'"%char in
  String quote (escape quote s) +:+ String quote "".

Fixpoint py_repr (v : value) : string :=
  let fix items_repr (xs : list value) : list string :=
    match xs with
    | [] => []
    | x :: rest => py_repr x :: items_repr rest
    end in
  let fix entries_repr (sep : string) (quoted : bool) (xs : list (string * value))
    : list string :=
    match xs with
    | [] => []
    | (k, x) :: rest =>
        ((if quoted then repr_str k else k) +:+ sep +:+ py_repr x)
        :: entries_repr sep quoted rest
    end in
  match v with
  | VNone => "None"
  | VBool true => "True"
  | VBool false => "False"
  | VInt z => pretty z
  | VStr s => repr_str s
  | VList xs => "[" +:+ String.concat ", " (items_repr xs) +:+ "]"
  | VDict xs => "{" +:+ String.concat ", " (entries_repr ": " true xs) +:+ "}"
  | VSentinel HAS_DEFAULT_FACTORY => "<factory>"
  | VSentinel NOTHING => "NOTHING"
  | VInst c xs => c +:+ "(" +:+ String.concat ", " (entries_repr "=" false xs) +:+ ")"
  end.

(** [str(v)] *)
Definition py_str (v : value) : string :=
  match v with
  | VStr s => s
  | _ => py_repr v
  end.

Definition is_whitespace (c : ascii) : bool :=
  let n := nat_of_ascii c in
  ((9 <=? n)%nat && (n <=? 13)%nat) || ((28 <=? n)%nat && (n <=? 32)%nat).

Fixpoint lstrip (s : list ascii) : list ascii :=
  match s with
  | c :: rest => if is_whitespace c then lstrip rest else s
  | [] => []
  end.

Definition strip (s : list ascii) : list ascii :=
  rev (lstrip (rev (lstrip s))).

Definition digit_of (c : ascii) : option Z :=
  let n := nat_of_ascii c in
  if (48 <=? n)%nat && (n <=? 57)%nat then Some (Z.of_nat (n - 48)) else None.

(** Decimal digits, single underscores allowed between two digits. *)
Fixpoint parse_digits (s : list ascii) (acc : Z) (after_digit : bool) : option Z :=
  match s with
  | [] => if after_digit then Some acc else None
  | c :: rest =>
      if Ascii.eqb c "_" then
        if after_digit then parse_digits rest acc false else None
      else
        match digit_of c with
        | Some d => parse_digits rest (10 * acc + d)%Z true
        | None => None
        end
  end.

(** [int(s)] for a [str]. *)
Definition int_of_str (s : string) : option Z :=
  match strip (list_ascii_of_string s) with
  | "-"%char :: digits => Z.opp <$> parse_digits digits 0%Z false
  | "+"%char :: digits => parse_digits digits 0%Z false
  | digits => parse_digits digits 0%Z false
  end.

Definition py_int (v : value) : outcome value :=
  match v with
  | VInt z => Return (VInt z)
  | VBool b => Return (VInt (int_of_bool b))
  | VStr s =>
      match int_of_str s with
      | Some z => Return (VInt z)
      | None => Raise (ValueError [FText "invalid literal for int() with base 10: "; FVal v])
      end
  | _ => Raise (TypeError [FText "int() argument must be a string or a real number, not "; FVal v])
  end.

Fixpoint chars_of (s : string) : list value :=
  match s with
  | EmptyString => []
  | String c rest => VStr (String c "") :: chars_of rest
  end.

Definition py_list (v : value) : outcome value :=
  match v with
  | VList xs => Return (VList xs)
  | VStr s => Return (VList (chars_of s))
  | VDict xs => Return (VList (map (fun kv => VStr (fst kv)) xs))
  | _ => Raise (TypeError [FVal v; FText " object is not iterable"])
  end.

(** [dict(v)]: a mapping is copied, a list of two-item lists with [str] keys
    is read as key/value pairs. *)
Fixpoint pairs_of (xs : list value) (acc : pydict) : outcome pydict :=
  match xs with
  | [] => Return acc
  | VList [VStr k; x] :: rest => pairs_of rest (dict_set k x acc)
  | VStr (String a (String b "")) :: rest =>
      pairs_of rest (dict_set (String a "") (VStr (String b "")) acc)
  | (VList _ | VStr _ | VDict _) as x :: _ =>
      Raise (ValueError [FText "dictionary update sequence element has the wrong length: "; FVal x])
  | x :: _ =>
      Raise (TypeError [FText "cannot convert dictionary update sequence element: "; FVal x])
  end.

Definition py_dict (v : value) : outcome value :=
  match v with
  | VDict xs => Return (VDict xs)
  | VList xs => let! d := pairs_of xs [] in Return (VDict d)
  | VStr "" => Return (VDict [])
  | VStr _ =>
      Raise (ValueError [FText "dictionary update sequence element has the wrong length: "; FVal v])
  | _ => Raise (TypeError [FVal v; FText " object is not iterable"])
  end.

(** [bool(v)] *)
Definition truth (v : value) : bool :=
  match v with
  | VNone => false
  | VBool b => b
  | VInt z => negb (Z.eqb z 0)
  | VStr s => negb (String.eqb s "")
  | VList xs => negb (Nat.eqb (length xs) 0)
  | VDict xs => negb (Nat.eqb (length xs) 0)
  | _ => true
  end.

Definition python_builtins (c : pycls) (args : list value) (kwargs : pydict)
  : outcome value :=
  match c, args, kwargs with
  | Cint, [], [] => Return (VInt 0)
  | Cint, [v], [] => py_int v
  | Cstr, [], [] => Return (VStr "")
  | Cstr, [v], [] => Return (VStr (py_str v))
  | Cbool, [], [] => Return (VBool false)
  | Cbool, [v], [] => Return (VBool (truth v))
  | Clist, [], [] => Return (VList [])
  | Clist, [v], [] => py_list v
  | Cdict, [], _ => Return (VDict (dict_update [] kwargs))
  | Cdict, [v], [] => py_dict v
  | CNoneType, [], [] => Return VNone
  | _, _, _ => Raise (TypeError [FObj (Cls c); FText " called with unsupported arguments"])
  end.

(** ** logger.py: the consumer loop

    [Logger.__call__] runs in its own process.  The producers, the signal
    handler and the loop interleave; the model is a transition system whose
    events are a producer's [put_nowait], the delivery of SIGINT or SIGTERM
    (which runs [Logger.stop]), and one turn of the [while self.run] loop
    (the test, and the body when the test passes). *)

Module Logger.

(** A [LogRecord], by the name of its logger and its text. *)
Record LogRecord : Type := MkRecord {
  name : string;
  text : string
}.

Inductive status : Type :=
| Looping
| Exited                          (* the [while] test failed *)
| Crashed (r : LogRecord).        (* [logger.handle] on a missing logger *)

Record state : Type := MkState {
  run : bool;                     (* self.run *)
  loggers : list string;          (* the keys of self.loggers *)
  queue : list LogRecord;         (* oldest first *)
  handled : list LogRecord;       (* records passed to logger.handle, in order *)
  accepted : list LogRecord;      (* history: records the queue took in *)
  loop : status
}.

Inductive event : Type :=
| Enqueue (r : LogRecord)
| Signal
| Iterate.

(** [sync_manager.Queue(maxsize=4096)] *)
Definition maxsize : nat := 4096.

(** [Logger.__init__], with the queue still empty. *)
Definition init (names : list string) : state :=
  MkState true names [] [] [] Looping.

(** A producer's [queue.put_nowait(record)]: refused when the queue is full. *)
Definition put_nowait (r : LogRecord) (s : state) : state :=
  if (length (queue s) <? maxsize)%nat
  then MkState (run s) (loggers s) (queue s ++ [r]) (handled s) (accepted s ++ [r]) (loop s)
  else s.

(** [Logger.stop] *)
Definition stop (s : state) : state :=
  if run s
  then MkState false (loggers s) (queue s) (handled s) (accepted s) (loop s)
  else s.

(** One turn of [while self.run]: leave when [run] is off; otherwise poll
    with [get_nowait], go round again on [Empty], and hand a record to the
    logger registered under its name. *)
Definition iterate (s : state) : state :=
  match loop s with
  | Looping =>
      if run s then
        match queue s with
        | [] => s
        | record :: rest =>
            if mem_string (name record) (loggers s)
            then MkState (run s) (loggers s) rest (handled s ++ [record]) (accepted s) Looping
            else MkState (run s) (loggers s) rest (handled s) (accepted s) (Crashed record)
        end
      else MkState (run s) (loggers s) (queue s) (handled s) (accepted s) Exited
  | _ => s
  end.

Definition step (s : state) (e : event) : state :=
  match e with
  | Enqueue r => put_nowait r s
  | Signal => stop s
  | Iterate => iterate s
  end.

Definition run_events (events : list event) (s : state) : state :=
  fold_left step events s.



End Logger.

(** ** logger.py: rewiring the handlers

    [setup_server_logging] and [remove_server_logging] act on the handler
    lists of the three sanic loggers.  A handler is an object; it is
    modelled by its identity. *)

Module ServerLogging.

Inductive logger : Type := root_logger | access_logger | error_logger.

Definition logger_eqb (a b : logger) : bool :=
  match a, b with
  | root_logger, root_logger => true
  | access_logger, access_logger => true
  | error_logger, error_logger => true
  | _, _ => false
  end.

(** [list.remove(x)]: the first occurrence goes. *)
Fixpoint remove_first (h : nat) (hs : list nat) : list nat :=
  match hs with
  | [] => []
  | x :: rest => if Nat.eqb x h then rest else x :: remove_first h rest
  end.

(** [logging.Logger.removeHandler]: [if hdlr in self.handlers:
    self.handlers.remove(hdlr)]. *)
Definition removeHandler (h : nat) (hs : list nat) : list nat :=
  if existsb (Nat.eqb h) hs then remove_first h hs else hs.

(** [logging.Logger.addHandler]: [if not (hdlr in self.handlers):
    self.handlers.append(hdlr)]. *)
Definition addHandler (h : nat) (hs : list nat) : list nat :=
  if existsb (Nat.eqb h) hs then hs else hs ++ [h].

(** [for handler in logger_instance.handlers:
    logger_instance.removeHandler(handler)].  The loop walks the very list
    that its body shortens: the iterator keeps an index, yields the item at
    that index, and stops when the index has reached the end of the list as
    it then is.  [turns] bounds the number of turns. *)
Fixpoint remove_each (turns index : nat) (hs : list nat) : list nat :=
  match turns with
  | O => hs
  | S turns' =>
      match nth_error hs index with
      | Some h => remove_each turns' (S index) (removeHandler h hs)
      | None => hs
      end
  end.

(** The body of the outer loop of [setup_server_logging] for one logger.
    Every turn of the inner loop removes a handler, so as many turns as the
    list is long are enough. *)
Definition rewire (qhandler : nat) (hs : list nat) : list nat :=
  addHandler qhandler (remove_each (length hs) 0 hs).

(** The handlers of the loggers, and the two attributes that
    [setup_server_logging] puts on [app.ctx]. *)
Record app : Type := MkApp {
  handlers : logger -> list nat;
  _logger_handlers : option (list (logger * list nat));
  _qhandler : option nat
}.

(** [setup_server_logging], with [qhandler] the [QueueHandler] it creates. *)
Definition setup_server_logging (qhandler : nat) (a : app) : app :=
  MkApp (fun l => rewire qhandler (handlers a l)) (Some []) (Some qhandler).

Definition set_handlers (l : logger) (hs : list nat) (a : app) : app :=
  MkApp (fun l' => if logger_eqb l' l then hs else handlers a l')
        (_logger_handlers a) (_qhandler a).

Definition no_attribute (name : string) : exn :=
  AttributeError [FText "'types.SimpleNamespace' object has no attribute "; FVal (VStr name)].

(** The loop of [remove_server_logging] over the saved entries. *)
Fixpoint restore (saved : list (logger * list nat)) (a : app) : outcome app :=
  match saved with
  | [] => Return a
  | (l, originals) :: rest =>
      match _qhandler a with
      | None => Raise (no_attribute "_qhandler")
      | Some q =>
          restore rest
            (set_handlers l
               (fold_left (fun hs h => addHandler h hs) originals
                  (removeHandler q (handlers a l)))
               a)
      end
  end.

(** [remove_server_logging] *)
Definition remove_server_logging (a : app) : outcome app :=
  match _logger_handlers a with
  | None => Raise (no_attribute "_logger_handlers")
  | Some saved => restore saved a
  end.

(** The items at the second, fourth, ... place. *)
Fixpoint every_other (hs : list nat) : list nat :=
  match hs with
  | _ :: kept :: rest => kept :: every_other rest
  | _ => []
  end.

End ServerLogging.

(** ** config.py: [add_fallback_config]

    A [Config] is a dict of settings (sanic's [Config] subclasses [dict]);
    it is modelled as a finite map, without the order of insertion and
    without the hooks that sanic's [update] runs for some of its own keys. *)

Module FallbackConfig.

(** [key in config and value != config.get(key)] *)
Definition differs (config : gmap string value) (key : string) (v : value) : bool :=
  match config !! key with
  | Some current => negb (py_eq v current)
  | None => false
  end.

(** [add_fallback_config]: [constructed] is the [Config] built from the
    keyword arguments, used when no
    config is passed.  The result is [app.config] as the call leaves it and
    the config that is returned. *)
Definition add_fallback_config (app_config : gmap string value)
    (config : option (gmap string value)) (constructed : gmap string value)
  : gmap string value * gmap string value :=
  let config := match config with Some given => given | None => constructed end in
  let app_config' :=
    filter (fun kv : string * value => fst kv ∉ dom app_config) config ∪ app_config in
  let config' :=
    filter (fun kv : string * value => Is_true (differs config (fst kv) (snd kv)))
      app_config' ∪ config in
  (app_config', config').

End FallbackConfig.

(** ** Examples *)

Module Examples.

(** [class Person: name: str] *)
Definition Person : pycls := CModel "Person" [("name", NoDefault)].

Definition plain (c : pycls) : Hint :=
  MkHint (Cls c) false false false false None [] false.

Definition person_schema : gmap string SchemaEntry :=
  {[ "Person" := MkEntry [MkParam "name" None] {[ "name" := plain Cstr ]} ]}.

Definition george : value := VDict [("name", VStr "george")].

Definition person_entry : SchemaEntry :=
  MkEntry [MkParam "name" None] {[ "name" := plain Cstr ]}.

(** [Optional[int]] *)
Definition optional_int : Hint :=
  MkHint (Generic OrUnion [Cls Cint; Cls CNoneType])
    false false true true (Some OrUnion) [plain Cint] false.

(** [Union[int, str]] and [Optional[Union[int, bool]]] *)
Definition int_or_str : Hint :=
  MkHint (Generic OrUnion [Cls Cint; Cls Cstr])
    false false true false (Some OrUnion) [plain Cint; plain Cstr] false.

Definition optional_int_or_bool : Hint :=
  MkHint (Generic OrUnion [Cls Cint; Cls Cbool; Cls CNoneType])
    false false true true (Some OrUnion) [plain Cint; plain Cbool] false.

(** [List[str]], as the hint of a field with [default_factory=list] *)
Definition list_of_str : Hint :=
  MkHint (Generic OrList [Cls Cstr])
    false false true false (Some OrList) [plain Cstr] true.

(** [Optional[Dict[str, Any]]] *)
Definition any_hint : Hint :=
  MkHint Any false true false false None [] false.

Definition dict_of_any : pyobj := Generic OrDict [Cls Cstr; Any].

Definition optional_dict : Hint :=
  MkHint (Generic OrUnion [dict_of_any; Cls CNoneType])
    false false true true (Some OrUnion)
    [MkHint dict_of_any false false true false (Some OrDict)
       [plain Cstr; any_hint] false]
    false.


Definition item_schema : gmap string SchemaEntry :=
  {[ "Item" := MkEntry [MkParam "count" None] {[ "count" := optional_int ]} ]}.


Definition basket_hints : gmap string Hint := {[ "items" := list_of_str ]}.

Definition basket_schema : gmap string SchemaEntry :=
  {[ "Basket" := MkEntry [MkParam "items" (Some (VSentinel HAS_DEFAULT_FACTORY))]
                   basket_hints ]}.

(** A field [owner: Person] with a default factory *)
Definition person_field : Hint :=
  MkHint (Cls Person) true false false false None [] true.

(** The two hints of [Dict[str, int]] *)
Definition str_or_int : list Hint := [plain Cstr; plain Cint].

(** Three stream handlers on every logger *)
Definition three_handlers : ServerLogging.app :=
  ServerLogging.MkApp (fun _ => [1; 2; 3]%nat) None None.

Definition app_settings : gmap string value :=
  {[ "CORS" := VBool false; "REQUEST_TIMEOUT" := VInt 60 ]}.

Definition ext_settings : gmap string value :=
  {[ "CORS" := VBool true; "OAS" := VBool true ]}.

Definition child_record : Logger.LogRecord := Logger.MkRecord "sanic.root.child" "hello".

Definition first_record : Logger.LogRecord := Logger.MkRecord "sanic.root" "starting".
Definition second_record : Logger.LogRecord := Logger.MkRecord "sanic.access" "GET /".
Definition sanic_loggers : list string := ["sanic.root"; "sanic.access"; "sanic.error"].

End Examples.

(** ** check.py *)

Section Validation.

(** Whether [import attrs] succeeded when the module was loaded. *)
Variable ATTRS : bool.

(** The constructors of the built-in classes ([int(x)], [str(x)], [list(x)],
    ...), which the validator calls as coercers and never inspects. *)
Variable builtin_call : pycls -> list value -> pydict -> outcome value.

(** The schema every function receives and hands on unchanged. *)
Variable schema : gmap string SchemaEntry.

Definition MISSING : list sentinel :=
  if ATTRS then [HAS_DEFAULT_FACTORY; NOTHING] else [HAS_DEFAULT_FACTORY].

(** [value in MISSING] *)
Definition in_MISSING (v : value) : bool :=
  match v with
  | VSentinel m => existsb (sentinel_eqb m) MISSING
  | _ => false
  end.

(** Calling [o] with positional and keyword arguments. *)
Definition call (o : pyobj) (args : list value) (kwargs : pydict) : outcome value :=
  match o with
  | Cls (CModel name fields) => dataclass_init name fields args kwargs
  | Cls c => builtin_call c args kwargs
  | _ => Raise (TypeError [FObj o; FText " cannot be instantiated"])
  end.

(** [Hint.coerce_type] *)
Definition coerce_type (self : Hint) : pyobj :=
  if is_optional (hint self)
  then match get_args (hint self) with
       | first :: _ => first
       | [] => hint self
       end
  else hint self.

(** [Hint._do_coerce] *)
Definition _do_coerce (v : value) (coercer : value -> outcome value)
    (raise_exception : bool) : outcome value :=
  let attempt :=
    match v with
    | VList items =>
        let! coerced := map_outcome coercer items in
        Return (VList coerced)
    | _ => coercer v
    end in
  match attempt with
  | Raise (ValueError m) =>
      if raise_exception then Raise (ValueError m) else Return v
  | Raise (TypeError m) =>
      if raise_exception then Raise (TypeError m) else Return v
  | other => other
  end.

(** [Hint.get_coercer] *)
Definition get_coercer (coerce_type : pyobj) : value -> outcome value :=
  if is_bool_cls coerce_type then str_to_bool
  else fun v => call coerce_type [v] [].

(** The comprehension [[arg for arg in args if not isinstance(None, arg)]]. *)
Fixpoint not_None_types (args : list pyobj) : outcome (list pyobj) :=
  match args with
  | [] => Return []
  | arg :: rest =>
      let! none_ok := isinstance VNone arg in
      let! kept := not_None_types rest in
      Return (if none_ok then kept else arg :: kept)
  end.

(** [all(val is None for val in value)] *)
Definition all_None (v : value) : bool :=
  match v with
  | VList items => forallb is_None items
  | _ => false
  end.

(** The [for coerce_type in coerce_types] loop of [Hint.coerce]. *)
Fixpoint coerce_loop (coerce_types : list pyobj) (v : value) : outcome value :=
  match coerce_types with
  | [] => Return v
  | coerce_type :: rest =>
      let! already := isinstance v coerce_type in
      if already then Return v
      else
        match _do_coerce v (get_coercer coerce_type) true with
        | Raise (ValueError _) => coerce_loop rest v
        | Raise (TypeError _) => coerce_loop rest v
        | other => other
        end
  end.

(** [Hint.coerce] *)
Definition coerce (self : Hint) (v : value) (allow_multiple : bool) : outcome value :=
  let generic := is_generic (coerce_type self) in
  let args := get_args (coerce_type self) in
  if generic && existsb is_NoneType args && is_None v then Return VNone
  else
    let! coerce_types :=
      (if generic then not_None_types args else Return [coerce_type self]) in
    if nullable self then
      let! v' := _do_coerce v str_to_none false in
      if is_None v' || (is_list v' && allow_multiple && all_None v')
      then Return v'
      else coerce_loop coerce_types v'
    else coerce_loop coerce_types v.

(** [_check_types] *)
Definition py_ne (v : value) (expected : pyobj) : bool :=
  match expected with
  | Val w => negb (py_eq v w)
  | _ => true
  end.

Definition _check_types (v : value) (literal : bool) (expected : pyobj)
  : outcome unit :=
  if literal then
    if is_Any expected then Return tt
    else if py_ne v expected
    then Raise (ValueError [FText "Value '"; FVal v; FText "' must be "; FObj expected])
    else Return tt
  else
    let! ok := isinstance v expected in
    if negb ok
    then Raise (ValueError [FText "Value '"; FVal v; FText "' is not of type "; FObj expected])
    else Return tt.

(** [", ".join([str(option.hint) for option in allowed])] *)
Definition options_of (allowed : list Hint) : message :=
  join ", " (map (fun option => [FObj (hint option)]) allowed).

(** The functions below call [Hint.validate] on child hints; they take it as
    [validate], and the recursion is tied at the end of the section. *)
Section Recursive.

Variable validate : Hint -> value -> bool -> bool -> outcome value.

(** The [for hint in allowed ... else] loop of [_check_nullability]:
    [exc] is the last [ValueError] caught so far. *)
Fixpoint nullability_loop (allowed todo : list Hint) (v : value) (exc : option exn)
    (allow_multiple allow_coerce : bool) : outcome value :=
  match todo with
  | [] =>
      match exc with
      | Some e =>
          if Nat.eqb (length allowed) 1 then Raise e
          else Raise (ValueError
                 ([FText "Value '"; FVal v; FText "' must be one of "]
                  ++ options_of allowed ++ [FText ", or None"]))
      | None => Return v
      end
  | h :: rest =>
      match validate h v allow_multiple allow_coerce with
      | Raise (ValueError m) =>
          nullability_loop allowed rest v (Some (ValueError m))
            allow_multiple allow_coerce
      | other => other
      end
  end.

(** [any(val is not None for val in value)] *)
Definition any_not_None (v : value) : bool :=
  match v with
  | VList items => existsb (fun val => negb (is_None val)) items
  | _ => false
  end.

(** [_check_nullability] *)
Definition _check_nullability (v : value) (nullable : bool) (allowed : list Hint)
    (allow_multiple allow_coerce : bool) : outcome value :=
  if negb nullable && is_None v
  then Raise (ValueError [FText "Value cannot be None"])
  else if nullable && negb (is_None v)
          && (negb allow_multiple || (is_list v && any_not_None v))
  then nullability_loop allowed allowed v None allow_multiple allow_coerce
  else Return v.

(** [_check_inclusion] *)
Fixpoint inclusion_loop (todo : list Hint) (v : value)
    (allow_multiple allow_coerce : bool) : option (outcome value) :=
  match todo with
  | [] => None
  | option :: rest =>
      match validate option v allow_multiple allow_coerce with
      | Raise (ValueError _) => inclusion_loop rest v allow_multiple allow_coerce
      | Raise (TypeError _) => inclusion_loop rest v allow_multiple allow_coerce
      | other => Some other
      end
  end.

Definition _check_inclusion (v : value) (allowed : list Hint)
    (allow_multiple allow_coerce : bool) : outcome value :=
  match inclusion_loop allowed v allow_multiple allow_coerce with
  | Some result => result
  | None =>
      Raise (ValueError ([FText "Value '"; FVal v; FText "' must be one of "]
                         ++ options_of allowed))
  end.

Definition must_be_a (v : value) (hint : pyobj) : exn :=
  ValueError [FText "Value '"; FVal v; FText "' must be a "; FObj hint].

(** [_check_list] *)
Definition _check_list (v : value) (allowed : list Hint) (hint : pyobj)
    (allow_multiple allow_coerce : bool) : outcome value :=
  match v with
  | VList items =>
      match map_outcome
              (fun item => _check_inclusion item allowed allow_multiple allow_coerce)
              items with
      | Return checked => Return (VList checked)
      | Raise (ValueError _) => Raise (must_be_a v hint)
      | Raise (TypeError _) => Raise (must_be_a v hint)
      | Raise e => Raise e
      | RecursionLimit => RecursionLimit
      end
  | _ => Raise (must_be_a v hint)
  end.

(** [_check_dict] *)
Definition _check_dict (v : value) (allowed : list Hint) (hint : pyobj)
    (allow_multiple allow_coerce : bool) : outcome value :=
  match v with
  | VDict entries =>
      match map_outcome
              (fun kv =>
                 let! checked :=
                   _check_inclusion (snd kv) allowed allow_multiple allow_coerce in
                 Return (fst kv, checked))
              entries with
      | Return checked => Return (VDict checked)
      | Raise (ValueError _) => Raise (must_be_a v hint)
      | Raise (TypeError _) => Raise (must_be_a v hint)
      | Raise e => Raise e
      | RecursionLimit => RecursionLimit
      end
  | _ => Raise (must_be_a v hint)
  end.

(** The [for key, value in params.items()] loop of [check_data], with the
    [allow_missing] exemption of its inner handler. *)
Fixpoint hydrate (hints : gmap string Hint) (params : pydict)
    (hydration_values : pydict) (allow_multiple allow_coerce : bool)
  : outcome pydict :=
  match params with
  | [] => Return hydration_values
  | (key, v) :: rest =>
      match hints !! key with
      | None => Raise (AttributeError [FObj Any; FText " has no attribute 'validate'"])
      | Some hint =>
          match validate hint v allow_multiple allow_coerce with
          | Return checked =>
              hydrate hints rest (dict_set key checked hydration_values)
                allow_multiple allow_coerce
          | Raise (ValueError m) =>
              if negb (allow_missing hint) || negb (in_MISSING v)
              then Raise (ValueError m)
              else hydrate hints rest hydration_values allow_multiple allow_coerce
          | Raise e => Raise e
          | RecursionLimit => RecursionLimit
          end
      end
  end.

(** [schema[name]] *)
Definition schema_getitem (name : string) : outcome SchemaEntry :=
  match schema !! name with
  | Some entry => Return entry
  | None => Raise (KeyError [FVal (VStr name)])
  end.

(** [params = dict(zip(sig.parameters, bound.args)); params.update(bound.kwargs)] *)
Definition bound_params (params : Signature) (arguments : pydict) : pydict :=
  dict_update
    (dict_update [] (zip_pairs (parameter_names params) (bound_args params arguments)))
    (bound_kwargs false params arguments).

(** [check_data] *)
Definition check_data_body (model : pyobj) (data : value)
    (allow_multiple allow_coerce : bool) : outcome value :=
  match data with
  | VDict kwargs =>
      let! name := get_name model in
      let! entry := schema_getitem name in
      let! bound := sig_bind (sig entry) kwargs in
      let bound := apply_defaults (sig entry) bound in
      let params := bound_params (sig entry) bound in
      match hydrate (hints entry) params [] allow_multiple allow_coerce with
      | Return hydration_values => call model [] hydration_values
      | Raise (ValueError m) => Raise (TypeError m)
      | Raise e => Raise e
      | RecursionLimit => RecursionLimit
      end
  | _ => Raise (TypeError [FText "Value '"; FVal data; FText "' is not a dict"])
  end.

Definition in_inclusion_origins (o : option origin_t) : bool :=
  match o with
  | Some OrUnion | Some OrLiteral | Some OrUnionType => true
  | _ => false
  end.

(** [Hint.validate] *)
Definition validate_body (self : Hint) (v : value)
    (allow_multiple allow_coerce : bool) : outcome value :=
  if negb (typed self) then
    if model self then
      check_data_body (hint self) v allow_multiple allow_coerce
    else
      let v :=
        match v with
        | VList [single] =>
            if allow_multiple && negb (is_list_cls (coerce_type self))
            then single else v
        | _ => v
        end in
      match _check_types v (literal self) (hint self) with
      | Return _ => Return v
      | Raise (ValueError m) =>
          if allow_coerce then
            let! v' := coerce self v false in
            let! _ := _check_types v' (literal self) (hint self) in
            Return v'
          else Raise (ValueError m)
      | Raise e => Raise e
      | RecursionLimit => RecursionLimit
      end
  else
    let! v := (if allow_coerce then coerce self v allow_multiple else Return v) in
    let! v := _check_nullability v (nullable self) (allowed self)
                allow_multiple allow_coerce in
    if negb (nullable self) then
      if in_inclusion_origins (origin self) then
        _check_inclusion v (allowed self) allow_multiple allow_coerce
      else
        match origin self with
        | Some OrList =>
            _check_list v (allowed self) (hint self) allow_multiple allow_coerce
        | Some OrDict =>
            _check_dict v (allowed self) (hint self) allow_multiple allow_coerce
        | _ => Return v
        end
    else Return v.

End Recursive.

(** One unit of [depth] is one frame of [Hint.validate]; at depth zero the
    interpreter's recursion limit is reached. *)
Fixpoint validate (depth : nat) (self : Hint) (v : value)
    (allow_multiple allow_coerce : bool) : outcome value :=
  match depth with
  | O => RecursionLimit
  | S depth' => validate_body (validate depth') self v allow_multiple allow_coerce
  end.

Definition check_data (depth : nat) (model : pyobj) (data : value)
    (allow_multiple allow_coerce : bool) : outcome value :=
  check_data_body (validate depth) model data allow_multiple allow_coerce.

(** ** Vocabulary of the properties *)

(** The failures that [_check_inclusion] and [_check_list] catch: a call that
    raised [ValueError] or [TypeError]. *)
Definition validation_failure {A : Type} (r : outcome A) : Prop :=
  match r with
  | Raise (ValueError _) | Raise (TypeError _) => True
  | _ => False
  end.

(** The failure that [_check_nullability] and [check_data] catch. *)
Definition value_error {A : Type} (r : outcome A) : Prop :=
  match r with
  | Raise (ValueError _) => True
  | _ => False
  end.

(** The values that stand for "absent": [None] and the tokens of
    [str_to_none], in any case. *)
Definition absent (v : value) : Prop :=
  match v with
  | VNone => True
  | VStr s => mem_string (lower s) ["null"; "none"; ""] = true
  | _ => False
  end.

(** A hint of the untyped, plain branch for class [c]. *)
Definition plain_hint (h : Hint) (c : pycls) : Prop :=
  hint h = Cls c /\ typed h = false /\ model h = false /\ literal h = false.

(** What a parameter is bound to: the input value under its name, or else
    its default. *)
Definition bound_value (p : Param) (kwargs : pydict) : value :=
  match dict_get (p_name p) kwargs with
  | Some v => v
  | None => default VNone (p_default p)
  end.

(** The bound parameters, in signature order. *)
Definition supplied (params : Signature) (kwargs : pydict) : pydict :=
  map (fun p => (p_name p, bound_value p kwargs)) params.

(** The parameters that the input itself provides. *)
Definition given (params : Signature) (kwargs : pydict) : pydict :=
  flat_map (fun p => match dict_get (p_name p) kwargs with
                     | Some v => [(p_name p, v)]
                     | None => []
                     end) params.

(** A parameter that binding can serve: the input has it, or it has a
    default. *)
Definition served (kwargs : pydict) (p : Param) : Prop :=
  is_Some (dict_get (p_name p) kwargs) \/ is_Some (p_default p).

(** A hint tree without nested models. *)
Fixpoint model_free (h : Hint) : bool :=
  match h with
  | MkHint _ is_model _ _ _ _ children _ =>
      negb is_model && forallb model_free children
  end.

(** A value other than [None] that is neither a [str] nor a [list]. *)
Definition without_lower (v : value) : Prop :=
  match v with
  | VNone | VStr _ | VList _ => False
  | _ => True
  end.

(** ** Properties of the helpers *)



Lemma check_inclusion_single (depth : nat) (h : Hint) (v r : value) (am ac : bool) :
  validate depth h v am ac = Return r ->
  _check_inclusion (validate depth) v [h] am ac = Return r.
Proof.
  intros H. unfold _check_inclusion. cbn [inclusion_loop]. rewrite H. reflexivity.
Qed.

Lemma check_inclusion_single_failure (depth : nat) (h : Hint) (v : value) (am ac : bool) :
  validation_failure (validate depth h v am ac) ->
  value_error (_check_inclusion (validate depth) v [h] am ac).
Proof.
  intros H. unfold _check_inclusion. cbn [inclusion_loop].
  destruct (validate depth h v am ac) as [r|[m|m|m|m]|]; cbn in H; try contradiction; exact I.
Qed.

Lemma map_outcome_all {A B : Type} (f : A -> outcome B) (xs : list A) (ys : list B) :
  Forall2 (fun x y => f x = Return y) xs ys ->
  map_outcome f xs = Return ys.
Proof.
  induction 1 as [|x y xs ys Hxy _ IH]; [reflexivity|].
  cbn [map_outcome]. rewrite Hxy. cbn [bind]. rewrite IH. reflexivity.
Qed.

Lemma map_outcome_first_failure {A B : Type} (f : A -> outcome B)
    (pre : list A) (x : A) (post : list A) (e : exn) :
  Forall (fun a => exists b, f a = Return b) pre ->
  f x = Raise e ->
  map_outcome f (pre ++ x :: post) = Raise e.
Proof.
  induction 1 as [|a pre [b Hb] _ IH]; intros Hx.
  - cbn [app map_outcome]. rewrite Hx. reflexivity.
  - cbn [app map_outcome]. rewrite Hb. cbn [bind]. rewrite (IH Hx). reflexivity.
Qed.

(** C6. [_check_list] is all or nothing.  A value that is not a list is
    refused with the error that names the declared list type.  A list whose
    items all validate against the single element hint gives the list of the
    validated items, in order and of the same length.  A list in which an
    item fails (raises [ValueError] or [TypeError]) after the items before it
    validated is refused as a whole, with the error that names the declared
    list type. *)
Theorem check_list_all_or_nothing (depth : nat) (v : value) (h : Hint)
    (list_hint : pyobj) (am ac : bool) :
  (is_list v = false ->
   _check_list (validate depth) v [h] list_hint am ac
   = Raise (ValueError [FText "Value '"; FVal v; FText "' must be a "; FObj list_hint]))
  /\ (forall items results,
        v = VList items ->
        Forall2 (fun item r => validate depth h item am ac = Return r) items results ->
        _check_list (validate depth) v [h] list_hint am ac = Return (VList results)
        /\ length results = length items)
  /\ (forall pre item post,
        v = VList (pre ++ item :: post) ->
        Forall (fun x => exists r, validate depth h x am ac = Return r) pre ->
        validation_failure (validate depth h item am ac) ->
        _check_list (validate depth) v [h] list_hint am ac
        = Raise (ValueError [FText "Value '"; FVal v; FText "' must be a "; FObj list_hint])).
Proof.
  split; [|split].
  - intros Hv. destruct v; try reflexivity. discriminate Hv.
  - intros items results -> Hall. split.
    + unfold _check_list.
      rewrite (map_outcome_all _ items results); [reflexivity|].
      eapply Forall2_impl; [exact Hall|]. intros x y Hxy. cbn beta.
      apply check_inclusion_single. exact Hxy.
    + symmetry. eapply Forall2_length. exact Hall.
  - intros pre item post -> Hpre Hitem.
    pose proof (check_inclusion_single_failure _ _ _ _ _ Hitem) as Hfail.
    destruct (_check_inclusion (validate depth) item [h] am ac) as [r|[m|m|m|m]|] eqn:E;
      cbn in Hfail; try contradiction.
    unfold _check_list.
    rewrite (map_outcome_first_failure _ pre item post (ValueError m)); [reflexivity| |exact E].
    eapply Forall_impl; [exact Hpre|]. intros x [r Hr]. exists r.
    apply check_inclusion_single. exact Hr.
Qed.





(** ** Signature binding *)

Lemma bind_parameters_outcome (params : Signature) (kwargs : pydict) :
  (exists arguments, bind_parameters params kwargs = Return arguments)
  \/ (exists m, bind_parameters params kwargs = Raise (TypeError m)).
Proof.
  induction params as [|p rest IH]; [left; eexists; reflexivity|].
  cbn [bind_parameters].
  destruct (dict_get (p_name p) kwargs) as [v|].
  - destruct IH as [[arguments ->]|[m ->]]; [left|right]; eexists; reflexivity.
  - destruct (p_default p); [exact IH|]. right. eexists. reflexivity.
Qed.

Lemma bind_parameters_missing (params : Signature) (kwargs : pydict) (p : Param) :
  In p params -> p_default p = None -> dict_get (p_name p) kwargs = None ->
  exists m, bind_parameters params kwargs = Raise (TypeError m).
Proof.
  intros Hin Hdef Hget. induction params as [|q rest IH]; [destruct Hin|].
  cbn [bind_parameters]. destruct Hin as [->|Hin].
  - rewrite Hget, Hdef. eexists. reflexivity.
  - destruct (IH Hin) as [m Hm].
    destruct (dict_get (p_name q) kwargs) as [v|].
    + rewrite Hm. eexists. reflexivity.
    + destruct (p_default q); [eexists; exact Hm|eexists; reflexivity].
Qed.

Lemma find_found {A : Type} (f : A -> bool) (l : list A) (x : A) :
  In x l -> f x = true -> exists y, find f l = Some y.
Proof.
  intros Hin Hf. destruct (find f l) as [y|] eqn:E; [eexists; reflexivity|].
  rewrite (find_none f l E x Hin) in Hf. discriminate.
Qed.

(** C9. [check_data] binds the input against the recorded signature before
    it validates any field: an input dict with a key that is not a parameter,
    or without a parameter that has no default, makes the binding raise
    [TypeError], and that is the outcome of [check_data] whatever the
    per-field validation would do; no instance is built. *)
Theorem strict_field_set_binding
    (validate_fields : Hint -> value -> bool -> bool -> outcome value)
    (model : pyobj) (name : string) (entry : SchemaEntry) (kwargs : pydict)
    (am ac : bool) :
  get_name model = Return name ->
  schema !! name = Some entry ->
  (exists k, In k (map fst kwargs) /\ is_parameter (sig entry) k = false)
  \/ (exists p, In p (sig entry) /\ p_default p = None
                /\ dict_get (p_name p) kwargs = None) ->
  exists m,
    sig_bind (sig entry) kwargs = Raise (TypeError m)
    /\ check_data_body validate_fields model (VDict kwargs) am ac = Raise (TypeError m).
Proof.
  intros Hname Hentry Hbad.
  assert (Hbind : exists m, sig_bind (sig entry) kwargs = Raise (TypeError m)).
  { unfold sig_bind. destruct Hbad as [[k [Hk Hnot]]|[p [Hp [Hdef Hget]]]].
    - destruct (bind_parameters_outcome (sig entry) kwargs) as [[arguments ->]|[m ->]];
        [|eexists; reflexivity].
      cbn [bind]. apply in_map_iff in Hk. destruct Hk as [[k' w] [Hfst Hin]].
      cbn in Hfst. subst k'.
      destruct (find_found (fun kv => negb (is_parameter (sig entry) (fst kv)))
                  kwargs (k, w) Hin) as [[k' w'] ->].
      { cbn. rewrite Hnot. reflexivity. }
      eexists. reflexivity.
    - destruct (bind_parameters_missing _ _ _ Hp Hdef Hget) as [m ->].
      eexists. reflexivity. }
  destruct Hbind as [m Hm]. exists m. split; [exact Hm|].
  unfold check_data_body, schema_getitem. rewrite Hname. cbn [bind].
  rewrite Hentry. cbn [bind]. rewrite Hm. reflexivity.
Qed.

(** ** The identity law *)

Lemma bind_parameters_given (params : Signature) (kwargs : pydict) :
  Forall (served kwargs) params ->
  bind_parameters params kwargs = Return (given params kwargs).
Proof.
  induction 1 as [|p rest Hp _ IH]; [reflexivity|].
  cbn [bind_parameters given flat_map]. fold (given rest kwargs).
  destruct (dict_get (p_name p) kwargs) as [v|] eqn:E.
  - rewrite IH. reflexivity.
  - destruct Hp as [[v Hv]|[d Hd]]; [congruence|]. rewrite Hd. exact IH.
Qed.

Lemma dict_get_given_none (params : Signature) (kwargs : pydict) (n : string) :
  dict_get n kwargs = None -> dict_get n (given params kwargs) = None.
Proof.
  intros Hn. induction params as [|q rest IH]; [reflexivity|].
  cbn [given flat_map]. fold (given rest kwargs).
  destruct (dict_get (p_name q) kwargs) as [v|] eqn:E; [|exact IH].
  cbn [app dict_get]. destruct (String.eqb_spec (p_name q) n) as [Heq|_]; [|exact IH].
  congruence.
Qed.

Lemma dict_get_given (params : Signature) (kwargs : pydict) (n : string) :
  In n (parameter_names params) ->
  dict_get n (given params kwargs) = dict_get n kwargs.
Proof.
  induction params as [|q rest IH]; [intros []|].
  cbn [parameter_names map given flat_map]. fold (given rest kwargs).
  fold (parameter_names rest). intros Hin.
  destruct (String.eqb_spec (p_name q) n) as [Heq|Hne].
  - destruct (dict_get (p_name q) kwargs) as [v|] eqn:E.
    + cbn [app dict_get]. rewrite <- Heq, String.eqb_refl. symmetry. exact E.
    + rewrite <- Heq, E. apply dict_get_given_none. exact E.
  - destruct Hin as [Heq|Hin]; [contradiction|].
    destruct (dict_get (p_name q) kwargs) as [v|] eqn:E; [|apply IH; exact Hin].
    cbn [app dict_get]. destruct (String.eqb_spec (p_name q) n); [contradiction|].
    apply IH. exact Hin.
Qed.

Lemma apply_defaults_given (kwargs arguments : pydict) (params : Signature) :
  Forall (served kwargs) params ->
  (forall p, In p params ->
     dict_get (p_name p) arguments = dict_get (p_name p) kwargs) ->
  apply_defaults params arguments = supplied params kwargs.
Proof.
  induction 1 as [|p rest Hp _ IH]; intros Hagree; [reflexivity|].
  cbn [apply_defaults supplied map]. fold (supplied rest kwargs).
  rewrite (Hagree p) by (left; reflexivity). unfold bound_value at 1.
  rewrite <- IH by (intros q Hq; apply Hagree; right; exact Hq).
  destruct (dict_get (p_name p) kwargs) as [v|] eqn:E; [reflexivity|].
  destruct Hp as [[v Hv]|[d Hd]]; [congruence|]. rewrite Hd. reflexivity.
Qed.

Lemma dict_get_supplied (params : Signature) (kwargs : pydict) (p : Param) :
  NoDup (parameter_names params) -> In p params ->
  dict_get (p_name p) (supplied params kwargs) = Some (bound_value p kwargs).
Proof.
  induction params as [|q rest IH]; [intros _ []|].
  cbn [parameter_names map supplied dict_get]. fold (parameter_names rest).
  fold (supplied rest kwargs). intros Hnd Hin.
  apply NoDup_cons in Hnd. destruct Hnd as [Hfresh Hnd].
  destruct Hin as [->|Hin]; [rewrite String.eqb_refl; reflexivity|].
  destruct (String.eqb_spec (p_name q) (p_name p)) as [Heq|_]; [|apply IH; assumption].
  exfalso. apply Hfresh. rewrite Heq. apply list_elem_of_In, in_map. exact Hin.
Qed.

Lemma find_absent {A : Type} (f : A -> bool) (l : list A) :
  (forall x, In x l -> f x = false) -> find f l = None.
Proof.
  intros H. destruct (find f l) as [y|] eqn:E; [|reflexivity].
  apply find_some in E. destruct E as [Hin Hf]. rewrite (H y Hin) in Hf. discriminate.
Qed.

Lemma bound_args_supplied (kwargs arguments : pydict) (params : Signature) :
  (forall p, In p params ->
     dict_get (p_name p) arguments = Some (bound_value p kwargs)) ->
  bound_args params arguments = map snd (supplied params kwargs).
Proof.
  induction params as [|p rest IH]; intros Hagree; [reflexivity|].
  cbn [bound_args supplied map snd].
  rewrite (Hagree p) by (left; reflexivity).
  f_equal. apply IH. intros q Hq. apply Hagree. right. exact Hq.
Qed.

Lemma bound_kwargs_supplied (kwargs arguments : pydict) (params : Signature) :
  (forall p, In p params ->
     dict_get (p_name p) arguments = Some (bound_value p kwargs)) ->
  bound_kwargs false params arguments = [].
Proof.
  induction params as [|p rest IH]; intros Hagree; [reflexivity|].
  cbn [bound_kwargs]. rewrite (Hagree p) by (left; reflexivity).
  apply IH. intros q Hq. apply Hagree. right. exact Hq.
Qed.

Lemma zip_pairs_supplied (params : Signature) (kwargs : pydict) :
  zip_pairs (parameter_names params) (map snd (supplied params kwargs))
  = supplied params kwargs.
Proof.
  induction params as [|p rest IH]; [reflexivity|].
  cbn [parameter_names supplied map zip_pairs snd]. f_equal. exact IH.
Qed.

Lemma dict_set_fresh {A : Type} (key : string) (v : A) (d : list (string * A)) :
  ~ In key (map fst d) -> dict_set key v d = d ++ [(key, v)].
Proof.
  induction d as [|[k w] d IH]; [reflexivity|].
  cbn [map fst In dict_set app]. intros Hnot.
  destruct (String.eqb_spec k key); [tauto|]. f_equal. apply IH. tauto.
Qed.

Lemma fresh_key (acc pairs : pydict) (k : string) (v : value) :
  NoDup (map fst (acc ++ (k, v) :: pairs)) -> ~ In k (map fst acc).
Proof.
  rewrite map_app. cbn [map fst]. intros Hnd.
  apply NoDup_app in Hnd. destruct Hnd as [_ [Hdisj _]].
  intros Hin. apply list_elem_of_In in Hin. apply (Hdisj k Hin). left.
Qed.

Lemma dict_update_fresh (acc pairs : pydict) :
  NoDup (map fst (acc ++ pairs)) -> dict_update acc pairs = acc ++ pairs.
Proof.
  revert acc. induction pairs as [|[k v] pairs IH]; intros acc Hnd.
  - cbn. rewrite app_nil_r. reflexivity.
  - unfold dict_update. cbn [fold_left fst snd]. fold (dict_update (dict_set k v acc) pairs).
    rewrite (dict_set_fresh k v acc (fresh_key _ _ _ _ Hnd)).
    rewrite IH; rewrite <- app_assoc; cbn [app]; [reflexivity|exact Hnd].
Qed.

Lemma single_item_kept (v : value) :
  match v with
  | VList [single] => if false then single else v
  | _ => v
  end = v.
Proof. destruct v as [| | | |[|? [|? ?]]| | |]; reflexivity. Qed.

Lemma validate_plain (depth : nat) (h : Hint) (c : pycls) (v : value) (ac : bool) :
  plain_hint h c -> instance_of v c = true ->
  validate (S depth) h v false ac = Return v.
Proof.
  intros (Hhint & Htyped & Hmodel & Hlit) Hinst.
  cbn [validate]. unfold validate_body. rewrite Htyped, Hmodel. cbn [negb andb].
  rewrite single_item_kept.
  unfold _check_types. rewrite Hlit, Hhint. cbn [isinstance bind].
  rewrite Hinst. reflexivity.
Qed.

Lemma hydrate_plain (depth : nat) (hints : gmap string Hint) (params acc : pydict)
    (ac : bool) :
  NoDup (map fst (acc ++ params)) ->
  Forall (fun kv => exists h c, hints !! fst kv = Some h /\ plain_hint h c
                                /\ instance_of (snd kv) c = true) params ->
  hydrate (validate (S depth)) hints params acc false ac = Return (acc ++ params).
Proof.
  intros Hnd Hall. revert acc Hnd.
  induction Hall as [|[k v] params (h & c & Hh & Hplain & Hinst) _ IH]; intros acc Hnd.
  - cbn. rewrite app_nil_r. reflexivity.
  - cbn [hydrate]. cbn [fst snd] in Hh, Hinst. rewrite Hh.
    rewrite (validate_plain depth h c v ac Hplain Hinst).
    rewrite (dict_set_fresh k v acc (fresh_key _ _ _ _ Hnd)).
    rewrite IH; rewrite <- app_assoc; cbn [app]; [reflexivity|exact Hnd].
Qed.

Lemma init_fields_supplied (fields : list (string * field_default)) (kwargs : pydict) :
  Forall (fun fd => exists v, dict_get (fst fd) kwargs = Some v
                              /\ forall m, v <> VSentinel m) fields ->
  init_fields fields [] kwargs
  = Return (map (fun fd => (fst fd, default VNone (dict_get (fst fd) kwargs))) fields).
Proof.
  induction 1 as [|[f d] fields (v & Hv & Hns) _ IH]; [reflexivity|].
  cbn [init_fields map fst]. cbn [fst] in Hv. rewrite Hv, IH. cbn [bind default].
  replace (from_factory d v) with v; [reflexivity|].
  destruct d; try reflexivity. destruct v as [| | | | | |[|]|]; try reflexivity.
  exfalso. apply (Hns HAS_DEFAULT_FACTORY). reflexivity.
Qed.

Lemma instance_not_sentinel (v : value) (c : pycls) :
  instance_of v c = true -> forall m, v <> VSentinel m.
Proof. intros H m ->. destruct c; discriminate H. Qed.

Lemma is_parameter_names (params : Signature) (k : string) :
  is_parameter params k = true <-> In k (parameter_names params).
Proof.
  unfold is_parameter, parameter_names. rewrite existsb_exists, in_map_iff.
  split; intros [p [H1 H2]]; exists p.
  - apply String.eqb_eq in H2. tauto.
  - split; [tauto|]. apply String.eqb_eq. tauto.
Qed.

Lemma dict_get_in_keys {A : Type} (k : string) (d : list (string * A)) (v : A) :
  dict_get k d = Some v -> In k (map fst d).
Proof.
  induction d as [|[k' w] d IH]; [discriminate|].
  cbn [dict_get map fst In]. destruct (String.eqb_spec k' k); [left; assumption|].
  intros H. right. apply IH. exact H.
Qed.

Lemma dict_get_map_keys {A B : Type} (g : string -> B) (k : string)
    (d : list (string * A)) :
  In k (map fst d) ->
  dict_get k (map (fun kv => (fst kv, g (fst kv))) d) = Some (g k).
Proof.
  induction d as [|[k' w] d IH]; [intros []|].
  cbn [map fst dict_get In]. destruct (String.eqb_spec k' k) as [->|Hne]; [reflexivity|].
  intros [Heq|Hin]; [contradiction|]. apply IH. exact Hin.
Qed.

(** C1. The identity law.  Take a dataclass whose recorded signature lists
    its fields, every field with a plain (untyped, non-literal) hint for a
    class, and an input dict whose keys are fields and whose values already
    are instances of the class of their field (a field the input leaves out
    has a default that is).  Then [check_data] without [allow_multiple] and
    without [allow_coerce] returns an instance of the model that has exactly
    the declared fields, and every field of the input holds the input value,
    unchanged. *)
Theorem check_data_identity (depth : nat) (name : string)
    (fields : list (string * field_default)) (entry : SchemaEntry) (kwargs : pydict) :
  schema !! name = Some entry ->
  parameter_names (sig entry) = map fst fields ->
  NoDup (map fst fields) ->
  (forall k, In k (map fst kwargs) -> In k (map fst fields)) ->
  (forall p, In p (sig entry) ->
     exists h c,
       hints entry !! p_name p = Some h /\ plain_hint h c
       /\ match dict_get (p_name p) kwargs with
          | Some v => instance_of v c = true
          | None => exists d, p_default p = Some d /\ instance_of d c = true
          end) ->
  exists attrs,
    check_data (S depth) (Cls (CModel name fields)) (VDict kwargs) false false
    = Return (VInst name attrs)
    /\ map fst attrs = map fst fields
    /\ forall k v, dict_get k kwargs = Some v -> dict_get k attrs = Some v.
Proof.
  intros Hentry Hnames Hnd Hkeys Hfields.
  set (params := sig entry) in *.
  assert (Hnd' : NoDup (parameter_names params)) by (rewrite Hnames; exact Hnd).
  assert (Hbv : forall p, In p params ->
            exists h c, hints entry !! p_name p = Some h /\ plain_hint h c
                        /\ instance_of (bound_value p kwargs) c = true
                        /\ served kwargs p).
  { intros p Hp. destruct (Hfields p Hp) as (h & c & Hh & Hplain & Hv).
    exists h, c. unfold bound_value, served.
    destruct (dict_get (p_name p) kwargs) as [v|].
    - split; [exact Hh|split; [exact Hplain|split; [exact Hv|]]].
      left. eexists. reflexivity.
    - destruct Hv as (d & Hd & Hinst). rewrite Hd.
      split; [exact Hh|split; [exact Hplain|split; [exact Hinst|]]].
      right. eexists. reflexivity. }
  assert (Hserved : Forall (served kwargs) params).
  { apply Forall_forall. intros p Hp. apply list_elem_of_In in Hp.
    destruct (Hbv p Hp) as (h & c & _ & _ & _ & Hs). exact Hs. }
  assert (Hsupplied_keys : map fst (supplied params kwargs) = map fst fields).
  { rewrite <- Hnames. unfold supplied, parameter_names. rewrite map_map. reflexivity. }
  assert (Hbind : sig_bind params kwargs = Return (given params kwargs)).
  { unfold sig_bind. rewrite (bind_parameters_given _ _ Hserved). cbn [bind].
    rewrite find_absent; [reflexivity|].
    intros [k w] Hin. cbn [fst]. apply negb_false_iff, is_parameter_names.
    rewrite Hnames. apply Hkeys. apply in_map_iff.
    exists (k, w). split; [reflexivity|exact Hin]. }
  assert (Hdefaults : apply_defaults params (given params kwargs) = supplied params kwargs).
  { apply apply_defaults_given; [exact Hserved|].
    intros p Hp. apply dict_get_given, in_map. exact Hp. }
  assert (Hagree : forall p, In p params ->
            dict_get (p_name p) (supplied params kwargs) = Some (bound_value p kwargs)).
  { intros p Hp. apply dict_get_supplied; assumption. }
  assert (Hparams : bound_params params (supplied params kwargs) = supplied params kwargs).
  { unfold bound_params.
    rewrite (bound_args_supplied kwargs _ params Hagree).
    rewrite (bound_kwargs_supplied kwargs _ params Hagree).
    rewrite zip_pairs_supplied. cbn [dict_update fold_left].
    apply dict_update_fresh. cbn [app]. rewrite Hsupplied_keys. exact Hnd. }
  assert (Hhydrate : hydrate (validate (S depth)) (hints entry) (supplied params kwargs)
                       [] false false = Return (supplied params kwargs)).
  { apply (hydrate_plain depth (hints entry) (supplied params kwargs) [] false).
    - cbn [app]. rewrite Hsupplied_keys. exact Hnd.
    - unfold supplied. apply Forall_map, Forall_forall. intros p Hp.
      apply list_elem_of_In in Hp. cbn [fst snd].
      destruct (Hbv p Hp) as (h & c & Hh & Hplain & Hinst & _).
      exists h, c. tauto. }
  set (hv := supplied params kwargs) in *.
  set (attrs := map (fun fd : string * field_default =>
                       (fst fd, default VNone (dict_get (fst fd) hv))) fields).
  assert (Hget : forall f, In f (map fst fields) ->
            exists p, In p params /\ p_name p = f
                      /\ dict_get f hv = Some (bound_value p kwargs)
                      /\ forall m, bound_value p kwargs <> VSentinel m).
  { intros f Hf. rewrite <- Hnames in Hf. apply in_map_iff in Hf.
    destruct Hf as (p & Hpf & Hp). exists p. subst f.
    destruct (Hbv p Hp) as (h & c & _ & _ & Hinst & _).
    repeat split; auto. eapply instance_not_sentinel. exact Hinst. }
  exists attrs. split; [|split].
  - unfold check_data, check_data_body, schema_getitem. cbn [get_name class_name bind].
    rewrite Hentry. cbn [bind]. fold params. rewrite Hbind. cbn [bind].
    rewrite Hdefaults. fold hv. rewrite Hparams, Hhydrate.
    cbn [call]. unfold dataclass_init.
    rewrite find_absent.
    + rewrite (init_fields_supplied fields hv); [reflexivity|].
      apply Forall_forall. intros [f d] Hfd. apply list_elem_of_In in Hfd. cbn [fst].
      destruct (Hget f) as (p & _ & _ & Hv & Hns).
      * apply in_map_iff. exists (f, d). split; [reflexivity|exact Hfd].
      * exists (bound_value p kwargs). split; assumption.
    + intros [k w] Hin. cbn [fst]. apply negb_false_iff. unfold dict_has.
      assert (Hk : In k (map fst fields)).
      { rewrite <- Hsupplied_keys. apply in_map_iff.
        exists (k, w). split; [reflexivity|exact Hin]. }
      destruct (dict_get k fields) eqn:E; [reflexivity|].
      exfalso. clear - Hk E. induction fields as [|[f d] fs IH]; [destruct Hk|].
      cbn in E, Hk. destruct (String.eqb_spec f k); [discriminate|].
      destruct Hk; [contradiction|]. apply IH; assumption.
  - unfold attrs. rewrite map_map. reflexivity.
  - intros k v Hkv.
    assert (Hk : In k (map fst fields)).
    { apply Hkeys. eapply dict_get_in_keys. exact Hkv. }
    destruct (Hget k Hk) as (p & _ & Hpk & Hv & _).
    unfold attrs.
    rewrite (dict_get_map_keys (fun f => default VNone (dict_get f hv)) k fields Hk).
    rewrite Hv. cbn [default]. unfold bound_value. rewrite Hpk, Hkv. reflexivity.
Qed.

(** ** Coercion and nullability *)

Lemma isinstance_members_outcome (v : value) (whole : pyobj) (args : list pyobj) :
  (exists b, isinstance_members v whole args = Return b)
  \/ (exists m, isinstance_members v whole args = Raise (TypeError m)).
Proof.
  induction args as [|arg rest IH]; [left; eexists; reflexivity|].
  cbn [isinstance_members].
  destruct arg as [|c| |]; try (right; eexists; reflexivity).
  destruct (instance_of v c); [left; eexists; reflexivity|exact IH].
Qed.

Lemma isinstance_outcome (v : value) (o : pyobj) :
  (exists b, isinstance v o = Return b)
  \/ (exists m, isinstance v o = Raise (TypeError m)).
Proof.
  destruct o as [|c|w|[| | | | |n] args]; cbn [isinstance];
    try (right; eexists; reflexivity);
    try apply isinstance_members_outcome.
  left. eexists. reflexivity.
Qed.

Lemma not_None_types_outcome (args : list pyobj) :
  (exists kept, not_None_types args = Return kept)
  \/ (exists m, not_None_types args = Raise (TypeError m)).
Proof.
  induction args as [|arg rest IH]; [left; eexists; reflexivity|].
  cbn [not_None_types].
  destruct (isinstance_outcome VNone arg) as [[b ->]|[m ->]];
    [|right; eexists; reflexivity].
  cbn [bind]. destruct IH as [[kept ->]|[m ->]]; [left|right]; eexists; reflexivity.
Qed.

Lemma not_None_types_defined (args : list pyobj) :
  Forall (fun arg => exists b, isinstance VNone arg = Return b) args ->
  exists kept, not_None_types args = Return kept.
Proof.
  induction 1 as [|arg rest [b Hb] _ [kept IH]]; [eexists; reflexivity|].
  cbn [not_None_types]. rewrite Hb, IH. eexists. reflexivity.
Qed.

Lemma coerce_loop_no_value_error (coerce_types : list pyobj) (v : value) (m : message) :
  coerce_loop coerce_types v <> Raise (ValueError m).
Proof.
  induction coerce_types as [|ct rest IH]; [discriminate|].
  cbn [coerce_loop].
  destruct (isinstance_outcome v ct) as [[b ->]|[m' ->]]; [|discriminate].
  cbn [bind]. destruct b; [discriminate|].
  destruct (_do_coerce v (get_coercer ct) true) as [r|[m'|m'|m'|m']|];
    try discriminate; exact IH.
Qed.

Lemma do_coerce_quiet (v : value) (coercer : value -> outcome value) (m : message) :
  _do_coerce v coercer false <> Raise (ValueError m).
Proof.
  unfold _do_coerce.
  destruct (match v with
            | VList items => let! coerced := map_outcome coercer items in Return (VList coerced)
            | _ => coercer v
            end) as [r|[m'|m'|m'|m']|]; discriminate.
Qed.

Lemma str_to_none_absent (v : value) : absent v -> str_to_none v = Return VNone.
Proof.
  destruct v; cbn [absent]; try contradiction; intros H; [reflexivity|].
  unfold str_to_none. cbn [is_None call_lower bind]. rewrite H. reflexivity.
Qed.

Lemma coerce_absent (h : Hint) (v : value) (am : bool) :
  nullable h = true ->
  Forall (fun arg => exists b, isinstance VNone arg = Return b)
         (get_args (coerce_type h)) ->
  absent v ->
  coerce h v am = Return VNone.
Proof.
  intros Hnull Hargs Habs. unfold coerce.
  destruct (is_generic (coerce_type h) && existsb is_NoneType (get_args (coerce_type h))
            && is_None v); [reflexivity|].
  assert (Hdo : _do_coerce v str_to_none false = Return VNone).
  { pose proof (str_to_none_absent v Habs) as Hnone.
    unfold _do_coerce. destruct v; cbn [absent] in Habs; try contradiction;
      rewrite Hnone; reflexivity. }
  destruct (is_generic (coerce_type h)).
  - destruct (not_None_types_defined _ Hargs) as [kept ->]. cbn [bind].
    rewrite Hnull, Hdo. reflexivity.
  - cbn [bind]. rewrite Hnull, Hdo. reflexivity.
Qed.

(** C4 (as the code has it).  For a typed, nullable hint whose coercion
    target takes [isinstance] checks on each of its arguments, validating an
    absent value ([None], or "null", "none" or the empty string in any case)
    with [allow_coerce] yields [None].  For a typed hint that is not
    nullable, validating [None] without [allow_coerce] raises
    "Value cannot be None", for either value of [allow_multiple]. *)
Theorem nullability_handling (depth : nat) (h : Hint) (am : bool) :
  typed h = true ->
  (nullable h = true ->
   Forall (fun arg => exists b, isinstance VNone arg = Return b)
          (get_args (coerce_type h)) ->
   forall v, absent v -> validate (S depth) h v am true = Return VNone)
  /\ (nullable h = false ->
      validate (S depth) h VNone am false
      = Raise (ValueError [FText "Value cannot be None"])).
Proof.
  intros Htyped. split.
  - intros Hnull Hargs v Habs. cbn [validate]. unfold validate_body.
    rewrite Htyped. cbn [negb]. rewrite (coerce_absent h v am Hnull Hargs Habs).
    cbn [bind]. unfold _check_nullability. rewrite Hnull. cbn. reflexivity.
  - intros Hnull. cbn [validate]. unfold validate_body.
    rewrite Htyped. cbn [negb bind]. unfold _check_nullability. rewrite Hnull.
    reflexivity.
Qed.

Lemma coerce_bool_unrecognised (h : Hint) (s : string) (am : bool) :
  hint h = Cls Cbool -> nullable h = false ->
  value_error (str_to_bool (VStr s)) ->
  coerce h (VStr s) am = Return (VStr s).
Proof.
  intros Hhint Hnull Hbad.
  assert (Hct : coerce_type h = Cls Cbool).
  { unfold coerce_type. rewrite Hhint. reflexivity. }
  unfold coerce. rewrite Hct, Hnull. cbn [is_generic andb bind coerce_loop isinstance instance_of].
  unfold _do_coerce, get_coercer. cbn [is_bool_cls].
  destruct (str_to_bool (VStr s)) as [r|[m|m|m|m]|]; cbn in Hbad; try contradiction.
  reflexivity.
Qed.

(** C5 (as the code has it).  [Hint.coerce] never raises [ValueError]: a
    coercer that fails with [ValueError] or [TypeError] is passed over, and
    when no coercer is left the value is returned as it came.  In particular
    a string that is not a recognised boolean token, coerced toward [bool],
    comes back unconverted; the failure is raised afterwards, by the type
    check that [Hint.validate] repeats on the result. *)
Theorem coerce_failure_signalling (h : Hint) (v : value) (am : bool) :
  (forall m, coerce h v am <> Raise (ValueError m))
  /\ (forall s,
        v = VStr s -> hint h = Cls Cbool -> nullable h = false ->
        value_error (str_to_bool v) ->
        coerce h v am = Return v
        /\ (typed h = false -> model h = false -> literal h = false ->
            forall depth am',
              validate (S depth) h v am' true
              = Raise (ValueError [FText "Value '"; FVal v; FText "' is not of type ";
                                   FObj (Cls Cbool)]))).
Proof.
  split.
  - intros m. unfold coerce.
    destruct (is_generic (coerce_type h) && existsb is_NoneType (get_args (coerce_type h))
              && is_None v); [discriminate|].
    assert (Htail : forall cts,
      (if nullable h
       then let! v' := _do_coerce v str_to_none false in
            if is_None v' || (is_list v' && am && all_None v') then Return v'
            else coerce_loop cts v'
       else coerce_loop cts v) <> Raise (ValueError m)).
    { intros cts. destruct (nullable h); [|apply coerce_loop_no_value_error].
      pose proof (do_coerce_quiet v str_to_none) as Hq.
      destruct (_do_coerce v str_to_none false) as [v'|e|]; cbn [bind];
        [|intros Heq; injection Heq as ->; eapply Hq; reflexivity|discriminate].
      destruct (is_None v' || (is_list v' && am && all_None v')); [discriminate|].
      apply coerce_loop_no_value_error. }
    destruct (is_generic (coerce_type h)).
    + destruct (not_None_types_outcome (get_args (coerce_type h))) as [[kept ->]|[m' ->]];
        [apply Htail|discriminate].
    + apply Htail.
  - intros s -> Hhint Hnull Hbad. split.
    + apply coerce_bool_unrecognised; assumption.
    + intros Htyped Hmodel Hlit depth am'.
      cbn [validate]. unfold validate_body. rewrite Htyped, Hmodel. cbn [negb].
      unfold _check_types. rewrite Hlit, Hhint. cbn [isinstance instance_of bind negb].
      rewrite (coerce_bool_unrecognised h s false Hhint Hnull Hbad). reflexivity.
Qed.

(** ** The errors of [check_data] *)





(** ** Further properties of check.py *)

(** [_check_dict] keeps the keys, in order and unchecked, and puts the
    inclusion-checked value under each; input that is not a dict, and a dict
    in which a value fails after the values before it passed, are refused
    with the error that names the declared dict type. *)
Theorem check_dict_all_or_nothing (depth : nat) (v : value) (allowed : list Hint)
    (dict_hint : pyobj) (am ac : bool) :
  ((forall entries, v <> VDict entries) ->
   _check_dict (validate depth) v allowed dict_hint am ac
   = Raise (ValueError [FText "Value '"; FVal v; FText "' must be a "; FObj dict_hint]))
  /\ (forall entries results,
        v = VDict entries ->
        Forall2 (fun kv r => _check_inclusion (validate depth) (snd kv) allowed am ac
                             = Return r) entries results ->
        _check_dict (validate depth) v allowed dict_hint am ac
        = Return (VDict (zip_pairs (map fst entries) results)))
  /\ (forall pre key item post,
        v = VDict (pre ++ (key, item) :: post) ->
        Forall (fun kv => exists r, _check_inclusion (validate depth) (snd kv) allowed am ac
                                    = Return r) pre ->
        validation_failure (_check_inclusion (validate depth) item allowed am ac) ->
        _check_dict (validate depth) v allowed dict_hint am ac
        = Raise (ValueError [FText "Value '"; FVal v; FText "' must be a "; FObj dict_hint])).
Proof.
  split; [|split].
  - intros Hv. destruct v; try reflexivity. exfalso. eapply Hv. reflexivity.
  - intros entries results -> Hall. unfold _check_dict.
    rewrite (map_outcome_all _ entries (zip_pairs (map fst entries) results));
      [reflexivity|].
    induction Hall as [|[k x] r entries results Hr _ IH]; [constructor|].
    cbn [map fst zip_pairs]. constructor; [|exact IH].
    cbn [fst snd] in Hr |- *. rewrite Hr. reflexivity.
  - intros pre key item post -> Hpre Hitem. unfold _check_dict.
    destruct (_check_inclusion (validate depth) item allowed am ac)
      as [r|[m|m|m|m]|] eqn:E; cbn in Hitem; try contradiction.
    + rewrite (map_outcome_first_failure _ pre (key, item) post (ValueError m));
        [reflexivity| |cbn [fst snd]; rewrite E; reflexivity].
      eapply Forall_impl; [exact Hpre|]. intros [k x] [r Hr]. cbn [fst snd] in Hr |- *.
      rewrite Hr. eexists. reflexivity.
    + rewrite (map_outcome_first_failure _ pre (key, item) post (TypeError m));
        [reflexivity| |cbn [fst snd]; rewrite E; reflexivity].
      eapply Forall_impl; [exact Hpre|]. intros [k x] [r Hr]. cbn [fst snd] in Hr |- *.
      rewrite Hr. eexists. reflexivity.
Qed.

Lemma inclusion_loop_no_type_error
    (vf : Hint -> value -> bool -> bool -> outcome value)
    (todo : list Hint) (v : value) (am ac : bool) (m : message) :
  inclusion_loop vf todo v am ac <> Some (Raise (TypeError m)).
Proof.
  induction todo as [|h rest IH]; [discriminate|].
  cbn [inclusion_loop]. destruct (vf h v am ac) as [r|[m'|m'|m'|m']|];
    try exact IH; discriminate.
Qed.

Lemma check_inclusion_no_type_error
    (vf : Hint -> value -> bool -> bool -> outcome value)
    (v : value) (allowed : list Hint) (am ac : bool) (m : message) :
  _check_inclusion vf v allowed am ac <> Raise (TypeError m).
Proof.
  unfold _check_inclusion.
  pose proof (inclusion_loop_no_type_error vf allowed v am ac m) as H.
  destruct (inclusion_loop vf allowed v am ac) as [r|]; [|discriminate].
  intros ->. apply H. reflexivity.
Qed.

(** The compound checks never let a [TypeError] out: the [TypeError] of an
    alternative (a nested model that refused its input, say) is caught, and
    what [_check_inclusion], [_check_list] and [_check_dict] raise in its
    place is their own [ValueError].  This holds for any behaviour of
    [Hint.validate]. *)
Theorem compound_checks_raise_no_type_error
    (vf : Hint -> value -> bool -> bool -> outcome value)
    (v : value) (allowed : list Hint) (container_hint : pyobj) (am ac : bool)
    (m : message) :
  _check_inclusion vf v allowed am ac <> Raise (TypeError m)
  /\ _check_list vf v allowed container_hint am ac <> Raise (TypeError m)
  /\ _check_dict vf v allowed container_hint am ac <> Raise (TypeError m).
Proof.
  split; [apply check_inclusion_no_type_error|split].
  - unfold _check_list, must_be_a. destruct v; try discriminate.
    destruct (map_outcome _ items) as [r|[m'|m'|m'|m']|]; discriminate.
  - unfold _check_dict, must_be_a. destruct v; try discriminate.
    destruct (map_outcome _ entries) as [r|[m'|m'|m'|m']|]; discriminate.
Qed.

(** In [allow_multiple] mode an untyped, plain hint whose target is not
    [list] takes a one-item list for its item: validating [[v]] is
    validating [v].  When the target is [list], [allow_multiple] changes
    nothing. *)
Theorem validate_single_item_list (depth : nat) (h : Hint) (v : value) (ac : bool) :
  typed h = false -> model h = false ->
  (is_list_cls (coerce_type h) = false ->
   validate (S depth) h (VList [v]) true ac = validate (S depth) h v false ac)
  /\ (is_list_cls (coerce_type h) = true ->
      validate (S depth) h v true ac = validate (S depth) h v false ac).
Proof.
  intros Htyped Hmodel. split; intros Hlist.
  - cbn [validate]. unfold validate_body. rewrite Htyped, Hmodel, Hlist.
    cbn [negb andb]. rewrite single_item_kept. reflexivity.
  - cbn [validate]. unfold validate_body. rewrite Htyped, Hmodel, Hlist.
    cbn [negb andb]. rewrite single_item_kept.
    replace (match v with
             | VList [single] => v
             | _ => v
             end) with v by (destruct v as [| | | |[|? [|? ?]]| | |]; reflexivity).
    reflexivity.
Qed.

(** A typed, nullable hint validated without [allow_coerce] returns [None]
    as it is, and in [allow_multiple] mode it returns every value that is not
    a list, and every list without a non-[None] item, as it is: the allowed
    alternatives are not consulted. *)
Theorem nullable_passes_unchecked (depth : nat) (h : Hint) (v : value) (am : bool) :
  typed h = true -> nullable h = true ->
  is_None v = true
  \/ (am = true /\ (is_list v = false \/ any_not_None v = false)) ->
  validate (S depth) h v am false = Return v.
Proof.
  intros Htyped Hnull Hv. cbn [validate]. unfold validate_body.
  rewrite Htyped. cbn [negb bind]. unfold _check_nullability. rewrite Hnull.
  cbn [negb andb].
  replace (negb (is_None v) && (negb am || is_list v && any_not_None v)) with false;
    [reflexivity|].
  destruct Hv as [->|[-> [->| ->]]]; cbn [negb andb orb];
    rewrite ?andb_false_r; reflexivity.
Qed.

Lemma map_outcome_str_to_none (items : list value) :
  Forall absent items ->
  map_outcome str_to_none items = Return (map (fun _ => VNone) items).
Proof.
  induction 1 as [|x items Hx _ IH]; [reflexivity|].
  cbn [map_outcome map]. rewrite (str_to_none_absent x Hx). cbn [bind].
  rewrite IH. reflexivity.
Qed.

(** With [allow_multiple] and [allow_coerce], a typed, nullable hint turns a
    list of absent values into the list of as many [None]s, not into
    [None]. *)
Theorem nullable_list_of_absent (depth : nat) (h : Hint) (items : list value) :
  typed h = true -> nullable h = true ->
  Forall (fun arg => exists b, isinstance VNone arg = Return b)
         (get_args (coerce_type h)) ->
  Forall absent items ->
  validate (S depth) h (VList items) true true
  = Return (VList (map (fun _ => VNone) items)).
Proof.
  intros Htyped Hnull Hargs Hitems.
  assert (Hnones : forall xs : list value,
            forallb is_None (map (fun _ => VNone) xs) = true
            /\ existsb (fun val => negb (is_None val)) (map (fun _ => VNone) xs) = false).
  { induction xs as [|x xs [IH1 IH2]]; [split; reflexivity|]. cbn. auto. }
  assert (Hcoerce : coerce h (VList items) true
                    = Return (VList (map (fun _ => VNone) items))).
  { unfold coerce. cbn [is_None]. rewrite andb_false_r.
    assert (Hdo : _do_coerce (VList items) str_to_none false
                  = Return (VList (map (fun _ => VNone) items))).
    { unfold _do_coerce. rewrite (map_outcome_str_to_none items Hitems). reflexivity. }
    destruct (is_generic (coerce_type h)).
    - destruct (not_None_types_defined _ Hargs) as [kept ->]. cbn [bind].
      rewrite Hnull, Hdo. cbn [bind is_None is_list all_None orb andb].
      rewrite (proj1 (Hnones items)). reflexivity.
    - cbn [bind]. rewrite Hnull, Hdo. cbn [bind is_None is_list all_None orb andb].
      rewrite (proj1 (Hnones items)). reflexivity. }
  cbn [validate]. unfold validate_body. rewrite Htyped. cbn [negb].
  rewrite Hcoerce. cbn [bind]. unfold _check_nullability. rewrite Hnull.
  cbn [negb andb orb is_None is_list any_not_None].
  rewrite (proj2 (Hnones items)). cbn. reflexivity.
Qed.

(** A bound parameter for which the schema has no hint is not validated as
    [Any]: [hints.get(key, Any)] answers [typing.Any], which has no
    [validate], and the loop of [check_data] raises [AttributeError] when it
    reaches the parameter. *)
Theorem hydrate_without_hint (depth : nat) (hints : gmap string Hint)
    (pre : pydict) (key : string) (v : value) (rest acc : pydict) (am ac : bool) :
  hints !! key = None ->
  Forall (fun kv => exists h r, hints !! fst kv = Some h
                                /\ validate depth h (snd kv) am ac = Return r) pre ->
  hydrate (validate depth) hints (pre ++ (key, v) :: rest) acc am ac
  = Raise (AttributeError [FObj Any; FText " has no attribute 'validate'"]).
Proof.
  intros Hkey Hpre. revert acc.
  induction Hpre as [|[k x] pre (h & r & Hh & Hr) _ IH]; intros acc.
  - cbn [app hydrate]. rewrite Hkey. reflexivity.
  - cbn [app hydrate]. cbn [fst snd] in Hh, Hr. rewrite Hh, Hr. apply IH.
Qed.

(** For an untyped, plain hint, coercion is only tried after the plain check
    has failed: a value that validates without [allow_coerce] validates to
    the same result with it. *)
Theorem coercion_only_after_failure (depth : nat) (h : Hint) (v r : value) (am : bool) :
  typed h = false -> model h = false ->
  validate (S depth) h v am false = Return r ->
  validate (S depth) h v am true = Return r.
Proof.
  intros Htyped Hmodel. cbn [validate]. unfold validate_body.
  rewrite Htyped, Hmodel. cbn [negb].
  destruct (_check_types _ (literal h) (hint h)) as [u|[m|m|m|m]|];
    try discriminate; auto.
Qed.

Lemma init_fields_keys (fields : list (string * field_default)) (args : list value)
    (kwargs attrs : pydict) :
  init_fields fields args kwargs = Return attrs -> map fst attrs = map fst fields.
Proof.
  revert args attrs. induction fields as [|[f d] rest IH]; intros args attrs.
  - cbn. destruct args; [|discriminate]. intros H. injection H as <-. reflexivity.
  - cbn [init_fields]. destruct args as [|a args'].
    + destruct (dict_get f kwargs), d;
        try discriminate;
        destruct (init_fields rest [] kwargs) as [tail| |] eqn:E; try discriminate;
        cbn [bind]; intros H; injection H as <-; cbn [map fst]; f_equal;
        eapply IH; exact E.
    + destruct (dict_has f kwargs); [discriminate|].
      destruct (init_fields rest args' kwargs) as [tail| |] eqn:E; try discriminate.
      cbn [bind]. intros H. injection H as <-. cbn [map fst]. f_equal.
      eapply IH. exact E.
Qed.

(** Whatever the input and the flags, what [check_data] returns for a
    dataclass model is an instance of that model with exactly the declared
    fields, in order: never the input dict, never a partial instance. *)
Theorem check_data_returns_instance (depth : nat) (name : string)
    (fields : list (string * field_default)) (data r : value) (am ac : bool) :
  check_data depth (Cls (CModel name fields)) data am ac = Return r ->
  exists attrs, r = VInst name attrs /\ map fst attrs = map fst fields.
Proof.
  unfold check_data, check_data_body, schema_getitem.
  destruct data; try discriminate. cbn [get_name class_name bind].
  destruct (schema !! name) as [entry|]; [|discriminate]. cbn [bind].
  destruct (sig_bind (sig entry) entries) as [arguments| |]; try discriminate.
  cbn [bind].
  destruct (hydrate _ _ _ _ _ _) as [hv|[m|m|m|m]|]; try discriminate.
  cbn [call]. unfold dataclass_init.
  destruct (find _ hv) as [[k w]|]; [discriminate|].
  destruct (init_fields fields [] hv) as [attrs| |] eqn:E; try discriminate.
  cbn [bind]. intros H. injection H as <-. exists attrs. split; [reflexivity|].
  eapply init_fields_keys. exact E.
Qed.

Lemma model_free_unfold (h : Hint) :
  model_free h = negb (model h) && forallb model_free (allowed h).
Proof. destruct h. reflexivity. Qed.

Lemma map_outcome_identity {A : Type} (f : A -> outcome A) (xs ys : list A) :
  (forall x y, In x xs -> f x = Return y -> y = x) ->
  map_outcome f xs = Return ys -> ys = xs.
Proof.
  revert ys. induction xs as [|x xs IH]; intros ys Hf.
  - cbn. intros H. injection H as <-. reflexivity.
  - cbn [map_outcome]. destruct (f x) as [y| |] eqn:Ex; try discriminate. cbn [bind].
    destruct (map_outcome f xs) as [tail| |] eqn:Et; try discriminate. cbn [bind].
    intros H. injection H as <-. f_equal.
    + apply Hf; [left; reflexivity|exact Ex].
    + apply IH; [|reflexivity]. intros x' y' Hin. apply Hf. right. exact Hin.
Qed.

Section PureCheck.
(** A [validate] that returns its input on the hints of [children]. *)
Variable vf : Hint -> value -> bool -> bool -> outcome value.
Variable children : list Hint.
Hypothesis vf_identity : forall h v r,
  In h children -> vf h v false false = Return r -> r = v.

Lemma nullability_loop_identity (allowed todo : list Hint) (v r : value)
    (exc : option exn) :
  incl todo children ->
  nullability_loop vf allowed todo v exc false false = Return r -> r = v.
Proof.
  revert exc. induction todo as [|h rest IH]; intros exc Hincl.
  - cbn. destruct exc; [destruct (Nat.eqb (length allowed) 1); discriminate|].
    intros H. injection H as <-. reflexivity.
  - cbn [nullability_loop].
    destruct (vf h v false false) as [r'|[m|m|m|m]|] eqn:E; try discriminate.
    + intros H. injection H as <-. eapply vf_identity; [|exact E].
      apply Hincl. left. reflexivity.
    + apply IH. intros x Hx. apply Hincl. right. exact Hx.
Qed.

Lemma check_inclusion_identity (todo : list Hint) (v r : value) :
  incl todo children ->
  _check_inclusion vf v todo false false = Return r -> r = v.
Proof.
  intros Hincl. unfold _check_inclusion.
  assert (Hloop : forall rest, incl rest children ->
            inclusion_loop vf rest v false false = Some (Return r) -> r = v).
  { induction rest as [|h rest IH]; intros Hrest; [discriminate|].
    cbn [inclusion_loop].
    destruct (vf h v false false) as [r'|[m|m|m|m]|] eqn:E; try discriminate;
      try (apply IH; intros x Hx; apply Hrest; right; exact Hx).
    intros H. injection H as <-. eapply vf_identity; [|exact E].
    apply Hrest. left. reflexivity. }
  destruct (inclusion_loop vf todo v false false) as [res|] eqn:E; [|discriminate].
  intros ->. eapply Hloop; eassumption.
Qed.

Lemma body_identity (h : Hint) (v r : value) :
  model h = false -> incl (allowed h) children ->
  validate_body vf h v false false = Return r -> r = v.
Proof.
  intros Hmodel Hincl. unfold validate_body. rewrite Hmodel.
  destruct (typed h); cbn [negb andb bind].
  - (* the compound branch *)
    assert (Hnull : forall r1,
              _check_nullability vf v (nullable h) (allowed h) false false = Return r1 ->
              r1 = v).
    { intros r1. unfold _check_nullability.
      destruct (negb (nullable h) && is_None v); [discriminate|].
      destruct (nullable h && negb (is_None v) && (negb false || is_list v && any_not_None v)).
      - apply nullability_loop_identity. exact Hincl.
      - intros H. injection H as <-. reflexivity. }
    destruct (_check_nullability vf v (nullable h) (allowed h) false false)
      as [r1| |] eqn:E; try discriminate.
    rewrite (Hnull r1 eq_refl). clear E Hnull r1. cbn [bind].
    destruct (nullable h); cbn [negb]; [intros H; injection H as <-; reflexivity|].
    destruct (in_inclusion_origins (origin h)).
    + apply check_inclusion_identity. exact Hincl.
    + destruct (origin h) as [[| | | | |n]|];
        try (intros H; injection H as <-; reflexivity).
      * unfold _check_list. destruct v; try discriminate.
        destruct (map_outcome (B:=value) _ items) as [checked|[m|m|m|m]|] eqn:E;
          try discriminate.
        intros H. injection H as <-. f_equal.
        eapply map_outcome_identity; [|exact E].
        intros x y _. apply check_inclusion_identity. exact Hincl.
      * unfold _check_dict. destruct v; try discriminate.
        destruct (map_outcome (B:=string * value) _ entries) as [checked|[m|m|m|m]|] eqn:E;
          try discriminate.
        intros H. injection H as <-. f_equal.
        eapply map_outcome_identity; [|exact E].
        intros [k x] [k' y] _. cbn [fst snd].
        destruct (_check_inclusion vf x (allowed h) false false) as [y'| |] eqn:Ey;
          try discriminate.
        cbn [bind]. intros H. injection H as <- <-. f_equal.
        eapply check_inclusion_identity; [exact Hincl|exact Ey].
  - (* the plain branch *)
    rewrite single_item_kept.
    destruct (_check_types v (literal h) (hint h)) as [u|[m|m|m|m]|]; try discriminate.
    intros H. injection H as <-. reflexivity.
Qed.
End PureCheck.

(** Without [allow_multiple] and without [allow_coerce], validation against a
    hint tree that has no nested model is a pure check: when it succeeds, at
    any depth of union, optional, list and dict, it returns the very value it
    was given. *)
Theorem validate_is_a_pure_check (depth : nat) (h : Hint) (v r : value) :
  model_free h = true ->
  validate depth h v false false = Return r ->
  r = v.
Proof.
  revert h v r. induction depth as [|depth IH]; intros h v r Hfree; [discriminate|].
  cbn [validate]. rewrite model_free_unfold in Hfree.
  apply andb_true_iff in Hfree. destruct Hfree as [Hmodel Hchildren].
  apply negb_true_iff in Hmodel.
  apply (body_identity (validate depth) (allowed h)); [|exact Hmodel|apply incl_refl].
  intros h' v' r' Hin. apply IH.
  rewrite forallb_forall in Hchildren. apply Hchildren. exact Hin.
Qed.

(** A field whose hint is a nested model gets no [allow_missing] exemption:
    for every value that is not a dict, the missing markers among them, the
    nested [check_data] raises [TypeError], which the handler for
    [ValueError] in the loop does not catch, whether or not the hint is
    marked [allow_missing]. *)
Theorem nested_model_is_never_exempt (depth : nat) (hints : gmap string Hint)
    (key : string) (v : value) (rest acc : pydict) (am ac : bool) (h : Hint) :
  hints !! key = Some h ->
  typed h = false -> model h = true ->
  (forall entries, v <> VDict entries) ->
  hydrate (validate (S depth)) hints ((key, v) :: rest) acc am ac
  = Raise (TypeError [FText "Value '"; FVal v; FText "' is not a dict"]).
Proof.
  intros Hh Htyped Hmodel Hv. cbn [hydrate]. rewrite Hh.
  cbn [validate]. unfold validate_body. rewrite Htyped, Hmodel. cbn [negb].
  unfold check_data_body. destruct v; try reflexivity.
  exfalso. eapply Hv. reflexivity.
Qed.

(** With [allow_coerce], a typed, nullable hint takes strings, lists and
    [None] only: [str_to_none] is tried first on whatever comes, and for any
    other value (an integer, a boolean, a dict, a missing marker) its
    [value.lower()] raises [AttributeError], which leaves [Hint.validate]. *)
Theorem nullable_coercion_needs_strings (depth : nat) (h : Hint) (v : value) (am : bool) :
  typed h = true -> nullable h = true ->
  Forall (fun arg => exists b, isinstance VNone arg = Return b)
         (get_args (coerce_type h)) ->
  without_lower v ->
  validate (S depth) h v am true
  = Raise (AttributeError [FVal v; FText " object has no attribute 'lower'"]).
Proof.
  intros Htyped Hnull Hargs Hv.
  assert (Hnone : is_None v = false) by (destruct v; cbn in Hv; tauto).
  assert (Hdo : _do_coerce v str_to_none false
                = Raise (AttributeError [FVal v; FText " object has no attribute 'lower'"])).
  { destruct v; cbn in Hv; try contradiction; reflexivity. }
  cbn [validate]. unfold validate_body. rewrite Htyped. cbn [negb].
  unfold coerce. rewrite Hnone, andb_false_r.
  destruct (is_generic (coerce_type h)).
  - destruct (not_None_types_defined _ Hargs) as [kept ->]. cbn [bind].
    rewrite Hnull, Hdo. reflexivity.
  - cbn [bind]. rewrite Hnull, Hdo. reflexivity.
Qed.

(** A typed hint whose origin is none of union, literal, list and dict (a
    [Tuple[...]] or a [Set[...]], say) is not checked at all without
    [allow_coerce]: unless it is nullable, it refuses [None], and every
    other value is returned as it came. *)
Theorem other_origins_are_unchecked (depth : nat) (h : Hint) (v : value) (am : bool) :
  typed h = true -> nullable h = false ->
  origin h = None \/ (exists name, origin h = Some (OrOther name)) ->
  is_None v = false ->
  validate (S depth) h v am false = Return v.
Proof.
  intros Htyped Hnull Horigin Hv. cbn [validate]. unfold validate_body.
  rewrite Htyped. cbn [negb bind]. unfold _check_nullability.
  rewrite Hnull, Hv. cbn [negb andb bind].
  destruct Horigin as [->|[name ->]]; reflexivity.
Qed.

(** [_do_coerce] treats a list item by item, all or nothing: when the
    coercer returns for every item the result is the list of what it
    returned; when it fails on an item (with [ValueError] or [TypeError],
    after returning for the items before), the list comes back untouched, or
    the failure is raised if [raise_exception] is set. *)
Theorem do_coerce_list_all_or_nothing (coercer : value -> outcome value)
    (items : list value) (raise_exception : bool) :
  (forall coerced,
      Forall2 (fun x y => coercer x = Return y) items coerced ->
      _do_coerce (VList items) coercer raise_exception = Return (VList coerced))
  /\ (forall pre x post,
        items = pre ++ x :: post ->
        Forall (fun a => exists b, coercer a = Return b) pre ->
        validation_failure (coercer x) ->
        _do_coerce (VList items) coercer raise_exception
        = if raise_exception then coercer x else Return (VList items)).
Proof.
  split.
  - intros coerced Hall. unfold _do_coerce.
    rewrite (map_outcome_all coercer items coerced Hall). reflexivity.
  - intros pre x post -> Hpre Hx. unfold _do_coerce.
    destruct (coercer x) as [r|e|] eqn:E; cbn in Hx; try contradiction.
    rewrite (map_outcome_first_failure coercer pre x post e Hpre E). cbn [bind].
    destruct e; try contradiction; destruct raise_exception; reflexivity.
Qed.

Lemma coerce_loop_skip (before rest : list pyobj) (v : value) :
  Forall (fun t => isinstance v t = Return false
                   /\ validation_failure (_do_coerce v (get_coercer t) true)) before ->
  coerce_loop (before ++ rest) v = coerce_loop rest v.
Proof.
  induction 1 as [|t before [Hinst Hfail] _ IH]; [reflexivity|].
  cbn [app coerce_loop]. rewrite Hinst. cbn [bind].
  destruct (_do_coerce v (get_coercer t) true) as [r|[m|m|m|m]|];
    cbn in Hfail; try contradiction; exact IH.
Qed.

(** The loop of [Hint.coerce] takes the first type that fits, in the order of
    the type's arguments: after types that the value is no instance of and
    that failed to coerce it, a type the value already is an instance of
    returns it unchanged, a type that coerces it returns the coerced value,
    and the types after that one are not tried. *)
Theorem coerce_loop_first_match (before after : list pyobj) (t : pyobj) (v : value) :
  Forall (fun t' => isinstance v t' = Return false
                    /\ validation_failure (_do_coerce v (get_coercer t') true)) before ->
  (isinstance v t = Return true ->
   coerce_loop (before ++ t :: after) v = Return v)
  /\ (forall r,
        isinstance v t = Return false ->
        _do_coerce v (get_coercer t) true = Return r ->
        coerce_loop (before ++ t :: after) v = Return r).
Proof.
  intros Hbefore. rewrite (coerce_loop_skip before (t :: after) v Hbefore).
  cbn [coerce_loop]. split.
  - intros ->. reflexivity.
  - intros r -> ->. reflexivity.
Qed.

End Validation.

(** ** The consumer loop *)







(** ** The properties on concrete inputs *)

Import Examples.

(** Scenario 1 of the specification: [Person{name: str}] and
    [{"name": "george"}]. *)
Lemma check_data_identity_george :
  exists attrs,
    check_data false python_builtins person_schema 1 (Cls Person) george false false
    = Return (VInst "Person" attrs)
    /\ map fst attrs = ["name"]
    /\ forall k v, dict_get k [("name", VStr "george")] = Some v -> dict_get k attrs = Some v.
Proof.
  apply (check_data_identity false python_builtins person_schema 0 "Person"
           [("name", NoDefault)] person_entry [("name", VStr "george")]).
  - reflexivity.
  - reflexivity.
  - apply NoDup_singleton.
  - intros k Hk. exact Hk.
  - intros p [<-|[]]. exists (plain Cstr), Cstr. repeat split; reflexivity.
Defined.


(** Scenario 4 of the specification, [List[str]] on ["a", 2]. *)
Lemma check_list_all_or_nothing_example :
  _check_list (validate false python_builtins person_schema 1)
    (VList ([VStr "a"] ++ VInt 2 :: [])) [plain Cstr] (Generic OrList [Cls Cstr])
    false false
  = Raise (ValueError [FText "Value '"; FVal (VList [VStr "a"; VInt 2]);
                       FText "' must be a "; FObj (Generic OrList [Cls Cstr])]).
Proof.
  refine (proj2 (proj2 (check_list_all_or_nothing false python_builtins person_schema 1
                          (VList [VStr "a"; VInt 2]) (plain Cstr)
                          (Generic OrList [Cls Cstr]) false false))
            [VStr "a"] (VInt 2) [] _ _ _).
  - reflexivity.
  - constructor; [exists (VStr "a"); reflexivity|constructor].
  - exact I.
Defined.



(** [Person] with an extra key. *)
Lemma strict_field_set_binding_example :
  exists m,
    sig_bind (sig person_entry) [("name", VStr "george"); ("age", VInt 3)]
    = Raise (TypeError m)
    /\ check_data false python_builtins person_schema 1 (Cls Person)
         (VDict [("name", VStr "george"); ("age", VInt 3)]) false false
       = Raise (TypeError m).
Proof.
  apply (strict_field_set_binding false python_builtins person_schema
           (validate false python_builtins person_schema 1)
           (Cls Person) "Person" person_entry
           [("name", VStr "george"); ("age", VInt 3)] false false).
  - reflexivity.
  - reflexivity.
  - left. exists "age". split; [right; left; reflexivity|reflexivity].
Defined.

(** Scenario 3 of the specification: [Optional[int]] on "null". *)
Lemma nullability_handling_example :
  validate false python_builtins item_schema 1 optional_int (VStr "NULL") false true
  = Return VNone.
Proof.
  refine (proj1 (nullability_handling false python_builtins item_schema 0
                   optional_int false _) _ _ (VStr "NULL") _).
  - reflexivity.
  - reflexivity.
  - constructor.
  - reflexivity.
Defined.

Lemma coerce_failure_signalling_example :
  coerce python_builtins (plain Cbool) (VStr "maybe") false = Return (VStr "maybe")
  /\ validate false python_builtins person_schema 1 (plain Cbool) (VStr "maybe") false true
     = Raise (ValueError [FText "Value '"; FVal (VStr "maybe");
                          FText "' is not of type "; FObj (Cls Cbool)]).
Proof.
  destruct (proj2 (coerce_failure_signalling false python_builtins person_schema
                     (plain Cbool) (VStr "maybe") false)
              "maybe" eq_refl eq_refl eq_refl I) as [Hcoerce Hvalidate].
  split; [exact Hcoerce|].
  exact (Hvalidate eq_refl eq_refl eq_refl 0 false).
Defined.



(** ** Where the specification and the code part *)


(** C4, refuted.  The hint of a field annotated [Any] is not nullable, and
    validating [None] against it succeeds.  The hint of
    [Optional[Dict[str, Any]]] is nullable, and validating "null" against it
    with [allow_coerce] raises [TypeError], from [isinstance(None, Any)] in
    [Hint.coerce]. *)
Lemma nullability_claim_fails :
  (nullable any_hint = false
   /\ validate false python_builtins item_schema 1 any_hint VNone false false
      = Return VNone)
  /\ (nullable optional_dict = true
      /\ validate false python_builtins item_schema 1 optional_dict (VStr "null") false true
         = Raise (TypeError
                    [FText "isinstance() arg 2 must be a type, a tuple of types, or a union";
                     FObj Any])).
Proof. repeat split; reflexivity. Defined.

(** C5, refuted.  "maybe" is not a boolean token: [str_to_bool] raises
    [ValueError] on it, and yet [Hint.coerce] toward [bool] returns the
    string, unconverted. *)
Lemma coerce_returns_unconverted :
  str_to_bool (VStr "maybe")
  = Raise (ValueError [FText "Invalid truth value "; FVal (VStr "maybe")])
  /\ coerce python_builtins (plain Cbool) (VStr "maybe") false = Return (VStr "maybe").
Proof. split; reflexivity. Defined.


(** ** Further properties of the consumer loop *)



Lemma Logger_stopped_stays (events : list Logger.event) (s : Logger.state) :
  Logger.loop s <> Logger.Looping ->
  Logger.loop (Logger.run_events events s) = Logger.loop s
  /\ Logger.handled (Logger.run_events events s) = Logger.handled s.
Proof.
  revert s. induction events as [|e events IH]; intros s Hs; [split; reflexivity|].
  cbn [Logger.run_events fold_left].
  assert (Hstep : Logger.loop (Logger.step s e) = Logger.loop s
                  /\ Logger.handled (Logger.step s e) = Logger.handled s).
  { destruct s as [r names q h a l]. cbn [Logger.loop] in Hs.
    destruct e as [rec| |]; cbn [Logger.step].
    - unfold Logger.put_nowait. cbn [Logger.queue].
      destruct (length q <? Logger.maxsize)%nat; split; reflexivity.
    - unfold Logger.stop. cbn [Logger.run]. destruct r; split; reflexivity.
    - unfold Logger.iterate. cbn [Logger.loop]. destruct l; [contradiction| |];
        split; reflexivity. }
  destruct Hstep as [Hl Hh].
  destruct (IH (Logger.step s e)) as [IHl IHh]; [rewrite Hl; exact Hs|].
  unfold Logger.run_events in *. split; congruence.
Qed.

(** A record whose name is not one of the registered loggers ends the loop:
    [self.loggers.get(record.name)] is [None], the call of [handle] on it
    raises, and nothing is handled from then on, whatever is enqueued. *)
Theorem Logger_unknown_name_ends_loop (s : Logger.state) (record : Logger.LogRecord)
    (rest : list Logger.LogRecord) (later : list Logger.event) :
  Logger.loop s = Logger.Looping ->
  Logger.run s = true ->
  Logger.queue s = record :: rest ->
  mem_string (Logger.name record) (Logger.loggers s) = false ->
  let final := Logger.run_events (Logger.Iterate :: later) s in
  Logger.loop final = Logger.Crashed record
  /\ Logger.handled final = Logger.handled s.
Proof.
  intros Hloop Hrun Hqueue Hname final. subst final.
  cbn [Logger.run_events fold_left Logger.step].
  assert (Hstep : Logger.loop (Logger.iterate s) = Logger.Crashed record
                  /\ Logger.handled (Logger.iterate s) = Logger.handled s).
  { unfold Logger.iterate. rewrite Hloop, Hrun, Hqueue, Hname. split; reflexivity. }
  destruct Hstep as [Hl Hh].
  destruct (Logger_stopped_stays later (Logger.iterate s)) as [Hl' Hh'].
  { rewrite Hl. discriminate. }
  unfold Logger.run_events in *. split; congruence.
Qed.

Lemma Logger_enqueue_all (records : list Logger.LogRecord) (s : Logger.state) :
  length (Logger.queue s) + length records <= Logger.maxsize ->
  Logger.run_events (map Logger.Enqueue records) s
  = Logger.MkState (Logger.run s) (Logger.loggers s) (Logger.queue s ++ records)
      (Logger.handled s) (Logger.accepted s ++ records) (Logger.loop s).
Proof.
  revert s. induction records as [|r records IH]; intros s Hlen.
  - cbn. rewrite !app_nil_r. destruct s; reflexivity.
  - cbn [map Logger.run_events fold_left Logger.step]. cbn [length] in Hlen.
    fold (Logger.run_events (map Logger.Enqueue records) (Logger.put_nowait r s)).
    assert (Hput : Logger.put_nowait r s
                   = Logger.MkState (Logger.run s) (Logger.loggers s)
                       (Logger.queue s ++ [r]) (Logger.handled s)
                       (Logger.accepted s ++ [r]) (Logger.loop s)).
    { unfold Logger.put_nowait.
      destruct (Nat.ltb_spec (length (Logger.queue s)) Logger.maxsize); [reflexivity|lia]. }
    rewrite Hput, IH; cbn [Logger.run Logger.loggers Logger.queue Logger.handled
                             Logger.accepted Logger.loop].
    + rewrite <- !app_assoc. reflexivity.
    + rewrite length_app. cbn [length]. lia.
Qed.

Lemma Logger_drain (names : list string) (pending done history : list Logger.LogRecord) :
  Forall (fun r => mem_string (Logger.name r) names = true) pending ->
  Logger.run_events (repeat Logger.Iterate (length pending))
    (Logger.MkState true names pending done history Logger.Looping)
  = Logger.MkState true names [] (done ++ pending) history Logger.Looping.
Proof.
  intros Hall. revert done. induction Hall as [|r pending Hr _ IH]; intros done.
  - cbn. rewrite app_nil_r. reflexivity.
  - cbn [length repeat Logger.run_events fold_left Logger.step].
    unfold Logger.iterate at 1. cbn [Logger.loop Logger.run Logger.queue Logger.loggers
                                       Logger.handled Logger.accepted].
    rewrite Hr.
    fold (Logger.run_events (repeat Logger.Iterate (length pending))
            (Logger.MkState true names pending (done ++ [r]) history Logger.Looping)).
    rewrite IH, <- app_assoc. reflexivity.
Qed.

(** While no signal arrives, the loop hands the records to their loggers in
    the order of arrival: records of registered loggers that fit in the queue
    are all handled, in order, after as many turns as there are records, and
    the queue is empty again. *)
Theorem Logger_handles_in_arrival_order (names : list string)
    (records : list Logger.LogRecord) :
  length records <= Logger.maxsize ->
  Forall (fun r => mem_string (Logger.name r) names = true) records ->
  let final :=
    Logger.run_events
      (map Logger.Enqueue records ++ repeat Logger.Iterate (length records))
      (Logger.init names) in
  Logger.handled final = records
  /\ Logger.queue final = []
  /\ Logger.loop final = Logger.Looping.
Proof.
  intros Hlen Hall final. subst final. unfold Logger.run_events.
  rewrite fold_left_app. fold (Logger.run_events (map Logger.Enqueue records) (Logger.init names)).
  rewrite Logger_enqueue_all by (cbn; lia). cbn [Logger.init Logger.run Logger.loggers
    Logger.queue Logger.handled Logger.accepted Logger.loop app].
  fold (Logger.run_events (repeat Logger.Iterate (length records))
          (Logger.MkState true names records [] records Logger.Looping)).
  rewrite (Logger_drain names records [] records Hall). repeat split; reflexivity.
Qed.

(** ** Rewiring the handlers *)

Lemma ServerLogging_remove_here (kept rest : list nat) (h : nat) :
  ~ In h kept ->
  ServerLogging.removeHandler h (kept ++ h :: rest) = kept ++ rest.
Proof.
  intros Hfresh. unfold ServerLogging.removeHandler.
  replace (existsb (Nat.eqb h) (kept ++ h :: rest)) with true.
  - induction kept as [|x kept IH]; cbn [app ServerLogging.remove_first].
    + rewrite Nat.eqb_refl. reflexivity.
    + destruct (Nat.eqb_spec x h) as [->|_]; [exfalso; apply Hfresh; left; reflexivity|].
      f_equal. apply IH. intros Hin. apply Hfresh. right. exact Hin.
  - symmetry. apply existsb_exists. exists h. split; [|apply Nat.eqb_refl].
    apply in_or_app. right. left. reflexivity.
Qed.

Lemma ServerLogging_remove_each (turns : nat) (kept rest : list nat) :
  NoDup (kept ++ rest) ->
  length rest <= turns ->
  ServerLogging.remove_each turns (length kept) (kept ++ rest)
  = kept ++ ServerLogging.every_other rest.
Proof.
  revert kept rest. induction turns as [|turns IH]; intros kept rest Hnd Hlen.
  - destruct rest; [reflexivity|cbn in Hlen; lia].
  - cbn [ServerLogging.remove_each].
    rewrite nth_error_app2, Nat.sub_diag by lia.
    destruct rest as [|x rest]; [reflexivity|]. cbn [nth_error].
    assert (Hfresh : ~ In x kept).
    { apply NoDup_app in Hnd. destruct Hnd as (_ & Hdisj & _).
      intros Hin. apply list_elem_of_In in Hin. apply (Hdisj x Hin). left. }
    rewrite (ServerLogging_remove_here kept rest x Hfresh).
    destruct rest as [|y rest].
    + cbn [ServerLogging.every_other]. destruct turns; [reflexivity|].
      cbn [ServerLogging.remove_each]. rewrite app_nil_r.
      replace (nth_error kept (S (length kept))) with (@None nat); [reflexivity|].
      symmetry. apply nth_error_None. lia.
    + cbn [ServerLogging.every_other].
      replace (kept ++ y :: rest) with ((kept ++ [y]) ++ rest)
        by (rewrite <- app_assoc; reflexivity).
      replace (S (length kept)) with (length (kept ++ [y]))
        by (rewrite length_app; cbn; lia).
      rewrite IH.
      * rewrite <- app_assoc. reflexivity.
      * rewrite <- app_assoc. cbn [app].
        apply NoDup_app in Hnd. destruct Hnd as (Hk & Hdisj & Hr).
        apply NoDup_cons in Hr. destruct Hr as [_ Hr].
        apply NoDup_app. split; [exact Hk|]. split; [|exact Hr].
        intros z Hz Hin. apply (Hdisj z Hz). right. exact Hin.
      * cbn [length] in Hlen. lia.
Qed.

Lemma ServerLogging_every_other_incl (hs : list nat) (h : nat) :
  In h (ServerLogging.every_other hs) -> In h hs.
Proof.
  assert (H : (In h (ServerLogging.every_other hs) -> In h hs)
              /\ forall x, In h (ServerLogging.every_other (x :: hs)) -> In h hs).
  { induction hs as [|a t [IH1 IH2]].
    - split; [intros []|intros x []].
    - split.
      + intros Hin. right. exact (IH2 a Hin).
      + intros x. cbn [ServerLogging.every_other].
        intros [->|Hin]; [left; reflexivity|right; exact (IH1 Hin)]. }
  exact (proj1 H).
Qed.

(** [setup_server_logging] does not take every handler away.  Its loop
    removes handlers from the list it is iterating over, so it skips every
    other one: of distinct handlers, those at the second, fourth, ... place
    stay, and the queue handler is added after them.  More turns would
    remove nothing more. *)
Theorem ServerLogging_setup_keeps_every_other (qhandler : nat)
    (a : ServerLogging.app) (l : ServerLogging.logger) :
  NoDup (ServerLogging.handlers a l) ->
  ~ In qhandler (ServerLogging.handlers a l) ->
  ServerLogging.handlers (ServerLogging.setup_server_logging qhandler a) l
  = ServerLogging.every_other (ServerLogging.handlers a l) ++ [qhandler]
  /\ forall turns, length (ServerLogging.handlers a l) <= turns ->
       ServerLogging.remove_each turns 0 (ServerLogging.handlers a l)
       = ServerLogging.every_other (ServerLogging.handlers a l).
Proof.
  intros Hnd Hfresh.
  assert (Hloop : forall turns, length (ServerLogging.handlers a l) <= turns ->
            ServerLogging.remove_each turns 0 (ServerLogging.handlers a l)
            = ServerLogging.every_other (ServerLogging.handlers a l)).
  { intros turns Hturns.
    exact (ServerLogging_remove_each turns [] (ServerLogging.handlers a l) Hnd Hturns). }
  split; [|exact Hloop].
  cbn [ServerLogging.setup_server_logging ServerLogging.handlers].
  unfold ServerLogging.rewire. rewrite (Hloop _ (Nat.le_refl _)).
  unfold ServerLogging.addHandler.
  replace (existsb (Nat.eqb qhandler) (ServerLogging.every_other (ServerLogging.handlers a l)))
    with false; [reflexivity|].
  symmetry. apply not_true_is_false. intros Hex. apply existsb_exists in Hex.
  destruct Hex as (x & Hin & Heq). apply Nat.eqb_eq in Heq. subst x.
  apply Hfresh, ServerLogging_every_other_incl, Hin.
Qed.

(** [remove_server_logging] after [setup_server_logging] restores nothing:
    the table of saved handlers is the empty one that setup created, so no
    logger is touched; every logger keeps the queue handler. *)
Theorem ServerLogging_remove_restores_nothing (qhandler : nat) (a : ServerLogging.app) :
  ServerLogging.remove_server_logging (ServerLogging.setup_server_logging qhandler a)
  = Return (ServerLogging.setup_server_logging qhandler a)
  /\ forall l,
       In qhandler
          (ServerLogging.handlers (ServerLogging.setup_server_logging qhandler a) l).
Proof.
  split; [reflexivity|]. intros l.
  cbn [ServerLogging.setup_server_logging ServerLogging.handlers].
  unfold ServerLogging.rewire, ServerLogging.addHandler.
  destruct (existsb (Nat.eqb qhandler) _) eqn:E.
  - apply existsb_exists in E. destruct E as (x & Hin & Heq).
    apply Nat.eqb_eq in Heq. subst x. exact Hin.
  - apply in_or_app. right. left. reflexivity.
Qed.

(** ** The fallback configuration *)

Lemma FallbackConfig_lookup_defaults (app_config config : gmap string value) (k : string) :
  (filter (fun kv : string * value => fst kv ∉ dom app_config) config ∪ app_config) !! k
  = match app_config !! k with
    | Some v => Some v
    | None => config !! k
    end.
Proof.
  destruct (app_config !! k) as [v|] eqn:E.
  - rewrite lookup_union_r; [exact E|].
    apply map_lookup_filter_None. right. intros x _ Hnot. cbn [fst] in Hnot.
    apply not_elem_of_dom in Hnot. congruence.
  - rewrite lookup_union_l by exact E.
    destruct (config !! k) as [c|] eqn:Ec.
    + apply map_lookup_filter_Some. split; [exact Ec|]. cbn [fst].
      apply not_elem_of_dom. exact E.
    + apply map_lookup_filter_None. left. exact Ec.
Qed.

Lemma FallbackConfig_lookup_overrides (app_config config : gmap string value) (k : string) :
  (filter (fun kv : string * value =>
             Is_true (FallbackConfig.differs config (fst kv) (snd kv))) app_config
   ∪ config) !! k
  = match app_config !! k with
    | Some w => if FallbackConfig.differs config k w then Some w else config !! k
    | None => config !! k
    end.
Proof.
  destruct (app_config !! k) as [w|] eqn:E.
  - destruct (FallbackConfig.differs config k w) eqn:Ed.
    + apply lookup_union_Some_raw. left. apply map_lookup_filter_Some.
      split; [exact E|]. cbn [fst snd]. rewrite Ed. exact I.
    + apply lookup_union_r. apply map_lookup_filter_None. right.
      intros x Hx. cbn [fst snd]. assert (x = w) by congruence. subst x.
      rewrite Ed. exact id.
  - apply lookup_union_r. apply map_lookup_filter_None. left. exact E.
Qed.

(** What [add_fallback_config] leaves behind.  The application keeps every
    setting it had and takes from the config only the keys it lacked.  The
    returned config has the keys it came with, and on each of them it now
    agrees with the application: it holds the application's value, or a
    value that Python's [==] does not tell apart from it. *)
Theorem FallbackConfig_application_wins (app_config : gmap string value)
    (config : option (gmap string value)) (constructed : gmap string value) :
  let given := match config with Some c => c | None => constructed end in
  let result := FallbackConfig.add_fallback_config app_config config constructed in
  (forall k, fst result !! k = match app_config !! k with
                               | Some v => Some v
                               | None => given !! k
                               end)
  /\ dom (snd result) = dom given
  /\ (forall k v, snd result !! k = Some v ->
        exists w, fst result !! k = Some w /\ (v = w \/ py_eq w v = true)).
Proof.
  intros given result.
  assert (Happ : forall k, fst result !! k = match app_config !! k with
                                             | Some v => Some v
                                             | None => given !! k
                                             end).
  { intros k. subst result given. unfold FallbackConfig.add_fallback_config.
    cbn [fst]. apply FallbackConfig_lookup_defaults. }
  assert (Hcfg : forall k, snd result !! k
                 = match fst result !! k with
                   | Some w => if FallbackConfig.differs given k w then Some w
                               else given !! k
                   | None => given !! k
                   end).
  { intros k. subst result given. unfold FallbackConfig.add_fallback_config.
    cbn [fst snd]. apply FallbackConfig_lookup_overrides. }
  split; [exact Happ|split].
  - apply set_eq. intros k. rewrite !elem_of_dom, Hcfg.
    destruct (fst result !! k) as [w|]; [|reflexivity].
    unfold FallbackConfig.differs.
    destruct (given !! k) as [c|]; [|reflexivity].
    destruct (negb (py_eq w c)); split; intros _; eexists; reflexivity.
  - intros k v. rewrite Hcfg. specialize (Happ k).
    destruct (fst result !! k) as [w|] eqn:Ew.
    + unfold FallbackConfig.differs. destruct (given !! k) as [c|].
      * destruct (py_eq w c) eqn:Eq; cbn [negb].
        -- intros H. injection H as <-. exists w. split; [reflexivity|].
           right. exact Eq.
        -- intros H. injection H as <-. exists w. split; [reflexivity|]. left. reflexivity.
      * discriminate.
    + intros Hv. destruct (app_config !! k); [discriminate|]. congruence.
Qed.

(** [add_fallback_config] settles in one call: calling it again, with the
    application's config and the returned config as it left them, changes
    neither. *)
Theorem FallbackConfig_settles (app_config : gmap string value)
    (config : option (gmap string value)) (constructed again : gmap string value) :
  let result := FallbackConfig.add_fallback_config app_config config constructed in
  FallbackConfig.add_fallback_config (fst result) (Some (snd result)) again = result.
Proof.
  intros result.
  destruct (FallbackConfig_application_wins app_config config constructed)
    as (Happ & Hdom & Hagree).
  fold result in Happ, Hdom, Hagree.
  set (given := match config with Some c => c | None => constructed end) in *.
  assert (Hsub : forall k, fst result !! k = None -> snd result !! k = None).
  { intros k Hk. apply not_elem_of_dom. rewrite Hdom. apply not_elem_of_dom.
    specialize (Happ k). rewrite Hk in Happ.
    destruct (app_config !! k); [discriminate|]. congruence. }
  assert (Hfst : filter (fun kv : string * value => fst kv ∉ dom (fst result)) (snd result)
                 ∪ fst result = fst result).
  { apply map_eq. intros k. rewrite FallbackConfig_lookup_defaults.
    destruct (fst result !! k) eqn:E; [reflexivity|]. apply Hsub. exact E. }
  unfold FallbackConfig.add_fallback_config at 1. rewrite Hfst.
  destruct result as [app' config'] eqn:Eres. cbn [fst snd] in *.
  f_equal. apply map_eq. intros k. rewrite FallbackConfig_lookup_overrides.
  destruct (app' !! k) as [w|] eqn:Ew; [|reflexivity].
  unfold FallbackConfig.differs.
  destruct (config' !! k) as [c|] eqn:Ec; [|reflexivity].
  destruct (py_eq w c) eqn:Eq; cbn [negb]; [reflexivity|].
  destruct (Hagree k c Ec) as (w' & Hw' & [->|Heq]); [congruence|].
  assert (w' = w) by congruence. subst w'. congruence.
Qed.

(** ** The further properties on concrete inputs *)

(** [Dict[str, int]] on [{"a": 1, "b": None}]. *)
Lemma check_dict_all_or_nothing_example :
  _check_dict (validate false python_builtins person_schema 1)
    (VDict ([("a", VInt 1)] ++ ("b", VNone) :: [])) str_or_int
    (Generic OrDict [Cls Cstr; Cls Cint]) false false
  = Raise (ValueError [FText "Value '"; FVal (VDict [("a", VInt 1); ("b", VNone)]);
                       FText "' must be a "; FObj (Generic OrDict [Cls Cstr; Cls Cint])]).
Proof.
  refine (proj2 (proj2 (check_dict_all_or_nothing false python_builtins person_schema 1
                          (VDict [("a", VInt 1); ("b", VNone)]) str_or_int
                          (Generic OrDict [Cls Cstr; Cls Cint]) false false))
            [("a", VInt 1)] "b" VNone [] _ _ _).
  - reflexivity.
  - constructor; [exists (VInt 1); reflexivity|constructor].
  - exact I.
Defined.

Lemma compound_checks_raise_no_type_error_example :
  _check_inclusion (validate false python_builtins person_schema 2) (VStr "x")
    [person_field] false false
  <> Raise (TypeError [FText "Value '"; FVal (VStr "x"); FText "' is not a dict"]).
Proof.
  exact (proj1 (compound_checks_raise_no_type_error
                  (validate false python_builtins person_schema 2) (VStr "x")
                  [person_field] Any false false
                  [FText "Value '"; FVal (VStr "x"); FText "' is not a dict"])).
Defined.

(** A query argument [?flag=yes] arrives as [["yes"]]. *)
Lemma validate_single_item_list_example :
  validate false python_builtins person_schema 1 (plain Cbool) (VList [VStr "yes"]) true true
  = validate false python_builtins person_schema 1 (plain Cbool) (VStr "yes") false true.
Proof.
  exact (proj1 (validate_single_item_list false python_builtins person_schema 0
                  (plain Cbool) (VStr "yes") true eq_refl eq_refl) eq_refl).
Defined.

(** [Optional[int]] on "abc" in [allow_multiple] mode. *)
Lemma nullable_passes_unchecked_example :
  validate false python_builtins person_schema 1 optional_int (VStr "abc") true false
  = Return (VStr "abc").
Proof.
  apply (nullable_passes_unchecked false python_builtins person_schema 0
           optional_int (VStr "abc") true).
  - reflexivity.
  - reflexivity.
  - right. split; [reflexivity|left; reflexivity].
Defined.

Lemma nullable_list_of_absent_example :
  validate false python_builtins person_schema 1 optional_int
    (VList [VStr "null"; VStr ""]) true true
  = Return (VList [VNone; VNone]).
Proof.
  apply (nullable_list_of_absent false python_builtins person_schema 0
           optional_int [VStr "null"; VStr ""]).
  - reflexivity.
  - reflexivity.
  - constructor.
  - constructor; [reflexivity|constructor; [reflexivity|constructor]].
Defined.

Lemma hydrate_without_hint_example :
  hydrate false (validate false python_builtins basket_schema 1) basket_hints
    ([("items", VList [])] ++ ("owner", VStr "ann") :: []) [] false false
  = Raise (AttributeError [FObj Any; FText " has no attribute 'validate'"]).
Proof.
  apply (hydrate_without_hint false python_builtins basket_schema 1 basket_hints
           [("items", VList [])] "owner" (VStr "ann") [] [] false false).
  - reflexivity.
  - constructor; [|constructor]. exists list_of_str, (VList []). split; reflexivity.
Defined.

Lemma coercion_only_after_failure_example :
  validate false python_builtins person_schema 1 (plain Cint) (VInt 3) false true
  = Return (VInt 3).
Proof.
  apply (coercion_only_after_failure false python_builtins person_schema 0
           (plain Cint) (VInt 3) (VInt 3) false); reflexivity.
Defined.

Lemma check_data_returns_instance_example :
  check_data false python_builtins person_schema 1 (Cls Person) george false false
  = Return (VInst "Person" [("name", VStr "george")])
  /\ exists attrs, VInst "Person" [("name", VStr "george")] = VInst "Person" attrs
                   /\ map fst attrs = ["name"].
Proof.
  split; [reflexivity|].
  apply (check_data_returns_instance false python_builtins person_schema 1 "Person"
           [("name", NoDefault)] george (VInst "Person" [("name", VStr "george")])
           false false).
  reflexivity.
Defined.

(** Scenario 4 of the specification: [List[str]] on ["a", "b"]. *)
Lemma validate_is_a_pure_check_example :
  validate false python_builtins person_schema 2 list_of_str
    (VList [VStr "a"; VStr "b"]) false false
  = Return (VList [VStr "a"; VStr "b"])
  /\ VList [VStr "a"; VStr "b"] = VList [VStr "a"; VStr "b"].
Proof.
  split; [reflexivity|].
  apply (validate_is_a_pure_check false python_builtins person_schema 2 list_of_str
           (VList [VStr "a"; VStr "b"]) (VList [VStr "a"; VStr "b"])); reflexivity.
Defined.

(** A field [owner: Person] with a default factory, and no input for it. *)
Lemma nested_model_is_never_exempt_example :
  hydrate false (validate false python_builtins person_schema 1)
    {[ "owner" := person_field ]} [("owner", VSentinel HAS_DEFAULT_FACTORY)] [] false false
  = Raise (TypeError [FText "Value '"; FVal (VSentinel HAS_DEFAULT_FACTORY);
                      FText "' is not a dict"]).
Proof.
  apply (nested_model_is_never_exempt false python_builtins person_schema 0
           {[ "owner" := person_field ]} "owner" (VSentinel HAS_DEFAULT_FACTORY)
           [] [] false false person_field).
  - reflexivity.
  - reflexivity.
  - reflexivity.
  - discriminate.
Defined.

Lemma nullable_coercion_needs_strings_example :
  validate false python_builtins person_schema 1 optional_int (VBool true) false true
  = Raise (AttributeError [FVal (VBool true); FText " object has no attribute 'lower'"]).
Proof.
  apply (nullable_coercion_needs_strings false python_builtins person_schema 0
           optional_int (VBool true) false).
  - reflexivity.
  - reflexivity.
  - constructor.
  - exact I.
Defined.

(** A record of a child logger, "sanic.root.child", reaches the queue through
    the handler of its parent. *)
Lemma Logger_unknown_name_ends_loop_example :
  let final :=
    Logger.run_events (Logger.Iterate :: [Logger.Enqueue first_record; Logger.Iterate])
      (Logger.run_events [Logger.Enqueue child_record] (Logger.init sanic_loggers)) in
  Logger.loop final = Logger.Crashed child_record /\ Logger.handled final = [].
Proof.
  apply (Logger_unknown_name_ends_loop
           (Logger.run_events [Logger.Enqueue child_record] (Logger.init sanic_loggers))
           child_record [] [Logger.Enqueue first_record; Logger.Iterate]);
    reflexivity.
Defined.

Lemma Logger_handles_in_arrival_order_example :
  let final :=
    Logger.run_events
      (map Logger.Enqueue [first_record; second_record] ++ repeat Logger.Iterate 2)
      (Logger.init sanic_loggers) in
  Logger.handled final = [first_record; second_record]
  /\ Logger.queue final = []
  /\ Logger.loop final = Logger.Looping.
Proof.
  apply (Logger_handles_in_arrival_order sanic_loggers [first_record; second_record]).
  - cbn. unfold Logger.maxsize. lia.
  - constructor; [reflexivity|constructor; [reflexivity|constructor]].
Defined.

(** Three handlers: the second one stays. *)
Lemma ServerLogging_setup_keeps_every_other_example :
  ServerLogging.handlers (ServerLogging.setup_server_logging 9 three_handlers)
    ServerLogging.root_logger
  = [2; 9]%nat.
Proof.
  refine (proj1 (ServerLogging_setup_keeps_every_other 9 three_handlers
                   ServerLogging.root_logger _ _)).
  - apply (bool_decide_unpack _). vm_compute. exact I.
  - cbn. lia.
Defined.

(** The application has [CORS] off; the extension's defaults have it on. *)
Lemma FallbackConfig_application_wins_example :
  snd (FallbackConfig.add_fallback_config app_settings (Some ext_settings) ∅)
    !! "CORS" = Some (VBool false)
  /\ exists w,
       fst (FallbackConfig.add_fallback_config app_settings (Some ext_settings) ∅)
         !! "CORS" = Some w
       /\ (VBool false = w \/ py_eq w (VBool false) = true).
Proof.
  assert (H : snd (FallbackConfig.add_fallback_config app_settings (Some ext_settings) ∅)
                !! "CORS" = Some (VBool false)) by (vm_compute; reflexivity).
  split; [exact H|].
  exact (proj2 (proj2 (FallbackConfig_application_wins app_settings (Some ext_settings) ∅))
           "CORS" (VBool false) H).
Defined.

Lemma other_origins_are_unchecked_example :
  validate false python_builtins person_schema 1
    (MkHint (Generic (OrOther "tuple") [Cls Cint; Cls Cstr]) false false true false
       (Some (OrOther "tuple")) [plain Cint; plain Cstr] false)
    (VStr "anything") false false
  = Return (VStr "anything").
Proof.
  apply (other_origins_are_unchecked false python_builtins person_schema 0).
  - reflexivity.
  - reflexivity.
  - right. exists "tuple". reflexivity.
  - reflexivity.
Defined.

(** A multi-valued query argument [["1", "x"]] coerced toward [int]. *)
Lemma do_coerce_list_all_or_nothing_example :
  _do_coerce (VList ([VStr "1"] ++ VStr "x" :: []))
    (get_coercer python_builtins (Cls Cint)) false
  = Return (VList [VStr "1"; VStr "x"]).
Proof.
  refine (proj2 (do_coerce_list_all_or_nothing
                   (get_coercer python_builtins (Cls Cint))
                   [VStr "1"; VStr "x"] false)
            [VStr "1"] (VStr "x") [] eq_refl _ _).
  - constructor; [exists (VInt 1); reflexivity|constructor].
  - exact I.
Defined.

(** [Union[bool, int]] on "7": [bool] fails, [int] coerces. *)
Lemma coerce_loop_first_match_example :
  coerce_loop python_builtins ([Cls Cbool] ++ Cls Cint :: [Cls Cstr]) (VStr "7")
  = Return (VInt 7).
Proof.
  refine (proj2 (coerce_loop_first_match python_builtins [Cls Cbool] [Cls Cstr] (Cls Cint)
                   (VStr "7") _) (VInt 7) _ _).
  - constructor; [split; [reflexivity|exact I]|constructor].
  - reflexivity.
  - reflexivity.
Defined.
